(** * A resource server on Fen and Authlete: bearer-token extraction,
      response assembly and the time endpoint

    Shallow embedding of the base endpoint ([base_resource_endpoint.ts],
    whose text is the second part of [src/endpoint/user_info_endpoint.ts])
    and of [src/endpoint/time_endpoint.ts].  JavaScript strings are sequences of
    UTF-16 code units, objects used as dictionaries are finite maps, the
    platform's [Headers] class is a header list observed through [get],
    [has] and the sorted and combined [entries], and asynchronous tasks are computations in a state-and-exception monad over
    the per-request world. *)

From Stdlib Require Import ZArith NArith Ascii String List Lia DecimalString.
From stdpp Require Import base option list gmap.

Local Open Scope N_scope.

(* ===================================================================== *)
(** ** JavaScript strings *)
(* ===================================================================== *)

Module Js.

(** A code unit of a JavaScript string (16 bits in the language; the model
    does not depend on the bound). *)
Definition char : Type := N.

(** A JavaScript string: its sequence of code units. *)
Definition jsstring : Type := list char.

(** An ASCII literal of the source, as a JavaScript string. *)
Definition lit (s : string) : jsstring :=
  List.map N_of_ascii (list_ascii_of_string s).

(** [\s] of a regular expression: WhiteSpace and LineTerminator code points
    (TAB, VT, FF, SP, NBSP, ZWNBSP, the Unicode space separators, LF, CR, LS
    and PS). *)
Definition isSpace (c : char) : bool :=
  (c =? 0x09) || (c =? 0x0A) || (c =? 0x0B) || (c =? 0x0C) || (c =? 0x0D)
  || (c =? 0x20) || (c =? 0xA0) || (c =? 0x1680)
  || ((0x2000 <=? c) && (c <=? 0x200A))
  || (c =? 0x2028) || (c =? 0x2029) || (c =? 0x202F) || (c =? 0x205F)
  || (c =? 0x3000) || (c =? 0xFEFF).

(** Canonicalize of a regular expression with the [i] flag and without the
    [u] flag, as far as a comparison with an ASCII pattern character needs
    it: an ASCII letter is mapped to its upper-case form, and a code unit
    from 128 on is never mapped into the ASCII range. *)
Definition canonicalize (c : char) : char :=
  if (0x61 <=? c) && (c <=? 0x7A) then c - 0x20 else c.

(** Number::toString for an integer (radix 10, no exponent in the range of
    the date fields). *)
Definition ofZ (z : Z) : jsstring :=
  lit (NilEmpty.string_of_int (Z.to_int z)).

End Js.

Import Js.

(* ===================================================================== *)
(** ** Regular expressions: the fragment [BEARER_PATTERN] is written in *)
(* ===================================================================== *)

Module RegExp.

(** What one pattern character can stand for. *)
Inductive cls : Type :=
| CLit (c : char)      (* a pattern character *)
| CSpace               (* \s *)
| CNotSpace.           (* [^\s] *)

(** The terms of a pattern: the two assertions, a single character, a greedy
    star, and a capturing group around a greedy plus. *)
Inductive term : Type :=
| TBol                 (* ^ *)
| TEol                 (* $ *)
| TChar (k : cls)
| TStar (k : cls)      (* k* *)
| TGroupPlus (k : cls). (* (k+) *)

Record regexp : Type := mkRegExp {
  source : list term;
  ignoreCase : bool
}.

Definition cls_match (ic : bool) (k : cls) (ch : char) : bool :=
  match k with
  | CLit c => if ic then canonicalize ch =? canonicalize c else ch =? c
  | CSpace => isSpace ch
  | CNotSpace => negb (isSpace ch)
  end.

(** The greedy loop of a quantifier: take one more character when possible,
    and on failure of what follows give the character back.  [acc] is what
    the loop consumed so far, [pos] the index in the input. *)
Fixpoint star_acc {R : Type} (p : char -> bool)
    (k : jsstring -> nat -> jsstring -> option R)
    (acc : jsstring) (pos : nat) (s : jsstring) : option R :=
  match s with
  | x :: s' =>
      if p x then
        match star_acc p k (acc ++ [x]) (S pos) s' with
        | Some r => Some r
        | None => k acc pos s
        end
      else k acc pos s
  | [] => k acc pos s
  end.

Definition plus_acc {R : Type} (p : char -> bool)
    (k : jsstring -> nat -> jsstring -> option R)
    (pos : nat) (s : jsstring) : option R :=
  match s with
  | x :: s' => if p x then star_acc p k [x] (S pos) s' else None
  | [] => None
  end.

(** The backtracking matcher: the terms [ts] against the input [s] that
    starts at index [pos]; [cap] is capture 1 so far.  The result is
    capture 1 of the successful match. *)
Fixpoint matcher (ic : bool) (ts : list term) (pos : nat) (s : jsstring)
    (cap : option jsstring) : option (option jsstring) :=
  match ts with
  | [] => Some cap
  | TBol :: r => if Nat.eqb pos 0 then matcher ic r pos s cap else None
  | TEol :: r => match s with [] => matcher ic r pos s cap | _ :: _ => None end
  | TChar k :: r =>
      match s with
      | x :: s' => if cls_match ic k x then matcher ic r (S pos) s' cap else None
      | [] => None
      end
  | TStar k :: r =>
      star_acc (cls_match ic k) (fun _ pos' s' => matcher ic r pos' s' cap) [] pos s
  | TGroupPlus k :: r =>
      plus_acc (cls_match ic k) (fun acc pos' s' => matcher ic r pos' s' (Some acc)) pos s
  end.

(** The search of [exec] without the [g] and [y] flags: the match is tried
    at index 0, then at each later index. *)
Fixpoint exec_from (re : regexp) (pos : nat) (s : jsstring)
    : option (option jsstring) :=
  match matcher (ignoreCase re) (source re) pos s None with
  | Some r => Some r
  | None =>
      match s with
      | [] => None
      | _ :: s' => exec_from re (S pos) s'
      end
  end.

(** [re.exec(s)]: [None] is JavaScript's [null]; on a match the result is
    element 1 of the result array, which is [undefined] ([None]) when the
    group took no part in the match. *)
Definition exec (re : regexp) (s : jsstring) : option (option jsstring) :=
  exec_from re 0 s.

End RegExp.

Import RegExp.

(* ===================================================================== *)
(** ** The platform's [Headers] *)
(* ===================================================================== *)

Module Headers.

(** The header list of a [Headers] object (Fetch standard): name/value
    pairs in the order of insertion, a name possibly more than once.  What
    a program observes of it goes through [get], [has] and [entries]. *)
Definition t : Type := list (jsstring * jsstring).

(** [new Headers()]. *)
Definition empty : t := [].

(** Byte-lowercase: [A] to [Z] become [a] to [z]. *)
Definition lower (c : char) : char :=
  if (0x41 <=? c) && (c <=? 0x5A) then c + 0x20 else c.

Definition lowercase (s : jsstring) : jsstring := List.map lower s.

(** HTTP white space: HT, LF, CR and SP. *)
Definition isHttpWhitespace (c : char) : bool :=
  (c =? 0x09) || (c =? 0x0A) || (c =? 0x0D) || (c =? 0x20).

Fixpoint dropSpace (v : jsstring) : jsstring :=
  match v with
  | c :: v' => if isHttpWhitespace c then dropSpace v' else v
  | [] => []
  end.

(** Normalization of a value: leading and trailing HTTP white space is
    removed. *)
Definition normalize (v : jsstring) : jsstring :=
  rev (dropSpace (rev (dropSpace v))).

(** Header names are compared without regard to ASCII case. *)
Definition name_eqb (a b : jsstring) : bool :=
  bool_decide (List.map canonicalize a = List.map canonicalize b).

(** The name a new header gets: the one of the first header of the list
    with that name, if there is one. *)
Definition nameIn (h : t) (name : jsstring) : jsstring :=
  match List.find (fun e => name_eqb (fst e) name) h with
  | Some e => fst e
  | None => name
  end.

(** [h.append(name, value)], on a name and a value that are valid (as the
    entries of a [Headers] object are): the value is normalized and the
    header is added at the end of the list. *)
Definition append (h : t) (name value : jsstring) : t :=
  h ++ [(nameIn h name, normalize value)].

Fixpoint join (sep : jsstring) (vs : list jsstring) : jsstring :=
  match vs with
  | [] => []
  | [v] => v
  | v :: vs' => v ++ sep ++ join sep vs'
  end.

(** The values recorded under a name, in order. *)
Definition values (h : t) (name : jsstring) : list jsstring :=
  List.map snd (List.filter (fun e => name_eqb (fst e) name) h).

(** [h.get(name)]: [null] ([None]) when the name is absent, else its values
    joined by a comma and a space. *)
Definition get (h : t) (name : jsstring) : option jsstring :=
  match values h name with
  | [] => None
  | vs => Some (join (lit ", ") vs)
  end.


(** The order of names: code unit by code unit. *)
Fixpoint lex_leb (a b : jsstring) : bool :=
  match a, b with
  | [], _ => true
  | _ :: _, [] => false
  | x :: a', y :: b' => if x <? y then true else if y <? x then false else lex_leb a' b'
  end.

Fixpoint insertSorted (n : jsstring) (l : list jsstring) : list jsstring :=
  match l with
  | [] => [n]
  | m :: l' => if lex_leb n m then n :: l else m :: insertSorted n l'
  end.

Definition sortNames (l : list jsstring) : list jsstring :=
  fold_right insertSorted [] l.

(** The names of the list as a sorted lower-case set. *)
Definition names (h : t) : list jsstring :=
  sortNames (remove_dups (List.map (fun e => lowercase (fst e)) h)).

Definition SET_COOKIE : jsstring := lit "set-cookie".

(** The entries under one name of the sorted set: one per value for
    [set-cookie], else one with the combined value. *)
Definition entriesUnder (h : t) (name : jsstring) : list (jsstring * jsstring) :=
  if bool_decide (name = SET_COOKIE)
  then List.map (fun v => (name, v)) (values h name)
  else match get h name with
       | Some v => [(name, v)]
       | None => []
       end.

(** [h.entries()], also what iterating [h] yields: the list sorted and
    combined. *)
Definition entries (h : t) : list (jsstring * jsstring) :=
  flat_map (entriesUnder h) (names h).



End Headers.

(* ===================================================================== *)
(** ** The platform's [Date] *)
(* ===================================================================== *)

Module Date.

Local Open Scope Z_scope.

Definition msPerDay : Z := 86400000.
Definition msPerHour : Z := 3600000.
Definition msPerMinute : Z := 60000.
Definition msPerSecond : Z := 1000.

Definition Day (t : Z) : Z := t / msPerDay.
Definition TimeWithinDay (t : Z) : Z := t mod msPerDay.

Definition DaysInYear (y : Z) : Z :=
  if negb (y mod 4 =? 0) then 365
  else if negb (y mod 100 =? 0) then 366
  else if negb (y mod 400 =? 0) then 365
  else 366.

Definition DayFromYear (y : Z) : Z :=
  365 * (y - 1970) + (y - 1969) / 4 - (y - 1901) / 100 + (y - 1601) / 400.

Definition TimeFromYear (y : Z) : Z := msPerDay * DayFromYear y.

(** The largest year whose first instant is not after [t]: a first guess
    from the mean length of a year, corrected by at most one. *)
Definition YearFromTime (t : Z) : Z :=
  let d := Day t in
  let y := 1970 + d * 400 / 146097 in
  if DayFromYear (y + 1) <=? d then y + 1
  else if DayFromYear y <=? d then y
  else y - 1.

Definition InLeapYear (t : Z) : Z :=
  if DaysInYear (YearFromTime t) =? 365 then 0 else 1.

Definition DayWithinYear (t : Z) : Z := Day t - DayFromYear (YearFromTime t).

(** The month number, 0 for January to 11 for December. *)
Definition MonthFromTime (t : Z) : Z :=
  let d := DayWithinYear t in
  let l := InLeapYear t in
  if d <? 31 then 0
  else if d <? 59 + l then 1
  else if d <? 90 + l then 2
  else if d <? 120 + l then 3
  else if d <? 151 + l then 4
  else if d <? 181 + l then 5
  else if d <? 212 + l then 6
  else if d <? 243 + l then 7
  else if d <? 273 + l then 8
  else if d <? 304 + l then 9
  else if d <? 334 + l then 10
  else 11.

(** The day of the month, from 1. *)
Definition DateFromTime (t : Z) : Z :=
  let d := DayWithinYear t in
  let l := InLeapYear t in
  match MonthFromTime t with
  | 0 => d + 1
  | 1 => d - 30
  | 2 => d - 58 - l
  | 3 => d - 89 - l
  | 4 => d - 119 - l
  | 5 => d - 150 - l
  | 6 => d - 180 - l
  | 7 => d - 211 - l
  | 8 => d - 242 - l
  | 9 => d - 272 - l
  | 10 => d - 303 - l
  | _ => d - 333 - l
  end.

Definition HourFromTime (t : Z) : Z := (t / msPerHour) mod 24.
Definition MinFromTime (t : Z) : Z := (t / msPerMinute) mod 60.
Definition SecFromTime (t : Z) : Z := (t / msPerSecond) mod 60.
Definition msFromTime (t : Z) : Z := t mod msPerSecond.

(** The host of a [Date]: the offset of local time from UTC, in
    milliseconds, at each instant. *)
Definition LocalTime (localTZA : Z -> Z) (t : Z) : Z := t + localTZA t.

(** The accessors [time_endpoint.ts] calls, on the time value [t]. *)
Definition getUTCFullYear (t : Z) : Z := YearFromTime t.
Definition getUTCMonth (t : Z) : Z := MonthFromTime t.
Definition getMonth (localTZA : Z -> Z) (t : Z) : Z :=
  MonthFromTime (LocalTime localTZA t).
Definition getUTCDate (t : Z) : Z := DateFromTime t.
Definition getUTCHours (t : Z) : Z := HourFromTime t.
Definition getUTCMinutes (t : Z) : Z := MinFromTime t.
Definition getUTCSeconds (t : Z) : Z := SecFromTime t.
Definition getUTCMilliseconds (t : Z) : Z := msFromTime t.

End Date.

(* ===================================================================== *)
(** ** Requests, responses and the per-request world *)
(* ===================================================================== *)

(** [Response] of Deno's HTTP server: every field is optional. *)
Record Response : Type := mkResponse {
  status : option Z;
  headers : option Headers.t;
  body : option jsstring
}.

(** [ServerRequest] of Deno's HTTP server, as far as the endpoints read it. *)
Record ServerRequest : Type := mkServerRequest {
  method : jsstring;
  req_headers : Headers.t
}.

(** Fen's [IContext]: the request, the query parameters, the decoded body,
    the headers Fen prepared for the response, and [config.disableRespond]. *)
Record IContext : Type := mkContext {
  request : ServerRequest;
  params : gmap jsstring jsstring;
  reqBody : gmap jsstring jsstring;
  ctx_headers : option Headers.t;
  disableRespond : bool
}.

(** A value a task can throw. *)
Inductive Value : Type :=
| VUndefined
| VString (s : jsstring)
| VNumber (z : Z)
| VError (name message : jsstring).

(** What a request can observe and change: Fen's context, the responses
    handed to [request.respond], the lines of [console.log], the calls
    made to the authorization service, the clock and the host's time zone. *)
Record World : Type := mkWorld {
  context : IContext;
  responded : list Response;
  console : list Value;
  remote : list jsstring;
  now : Z;
  localTZA : Z -> Z
}.

(** The result of an asynchronous computation: a value, or a thrown one. *)
Inductive Outcome (A : Type) : Type :=
| Ok (a : A)
| Throw (e : Value).
Arguments Ok {A} a.
Arguments Throw {A} e.

(** An asynchronous computation over the world. *)
Definition M (A : Type) : Type := World -> Outcome A * World.

Definition ret {A : Type} (a : A) : M A := fun w => (Ok a, w).

Definition bind {A B : Type} (m : M A) (f : A -> M B) : M B :=
  fun w =>
    match m w with
    | (Ok a, w') => f a w'
    | (Throw e, w') => (Throw e, w')
    end.

Definition throw {A : Type} (e : Value) : M A := fun w => (Throw e, w).

(** [try { m } catch (e) { h e }]. *)
Definition try_catch {A : Type} (m : M A) (h : Value -> M A) : M A :=
  fun w =>
    match m w with
    | (Ok a, w') => (Ok a, w')
    | (Throw e, w') => h e w'
    end.

Definition get_context : M IContext := fun w => (Ok (context w), w).

Definition modify (f : World -> World) : M unit := fun w => (Ok tt, f w).

Declare Scope task_scope.
Delimit Scope task_scope with task.
Notation "'let!' x ':=' m 'in' k" := (bind m (fun x => k))
  (at level 10, x name, m at level 100, k at level 200) : task_scope.
Notation "'run!' m 'in' k" := (bind m (fun _ => k))
  (at level 10, m at level 100, k at level 200) : task_scope.
Local Open Scope task_scope.

Definition set_context (c : IContext) (w : World) : World :=
  mkWorld c (responded w) (console w) (remote w) (now w) (localTZA w).

Definition set_disableRespond (b : bool) (c : IContext) : IContext :=
  mkContext (request c) (params c) (reqBody c) (ctx_headers c) b.

Definition set_headers (h : option Headers.t) (r : Response) : Response :=
  mkResponse (status r) h (body r).

(** [console.log(e)]. *)
Definition console_log (e : Value) : M unit :=
  modify (fun w =>
    mkWorld (context w) (responded w) (console w ++ [e]) (remote w)
            (now w) (localTZA w)).

(** [request.respond(response)]. *)
Definition respond (r : Response) : M unit :=
  modify (fun w =>
    mkWorld (context w) (responded w ++ [r]) (console w) (remote w)
            (now w) (localTZA w)).

(* ===================================================================== *)
(** ** What the endpoints import from the Authlete library *)
(* ===================================================================== *)

Module Authlete.

(** [ContentType.APPLICATION_FORM_URLENCODED]. *)
Definition APPLICATION_FORM_URLENCODED : jsstring :=
  lit "application/x-www-form-urlencoded".

(** [isNotEmpty(value)]: the value is neither null nor of length 0. *)
Definition isNotEmpty (v : option jsstring) : bool :=
  match v with
  | Some (_ :: _) => true
  | _ => false
  end.

(** The response helpers of the library ([badRequest],
    [internalServerError], [okJson]).  The library is not part of the
    repository; status, content type and body are as section 6 of the
    specification gives them. *)
Definition textResponse (code : Z) (b : jsstring) : Response :=
  mkResponse (Some code) (Some [(lit "Content-Type", lit "text/plain")]) (Some b).

Definition badRequest (b : jsstring) : Response := textResponse 400 b.

Definition internalServerError (b : jsstring) : Response := textResponse 500 b.

Definition okJson (b : jsstring) : Response :=
  mkResponse (Some 200%Z) (Some [(lit "Content-Type", lit "application/json")])
             (Some b).

(** What an [AccessTokenValidator] holds after [validate]: [errorResponse]
    is the field as the endpoint reads it, through [errorResponse!]; the
    library sets it whenever [isValid] is false, and it is not read
    otherwise. *)
Record AccessTokenValidator : Type := mkValidator {
  isValid : bool;
  errorResponse : Response
}.

End Authlete.

Import Authlete.

(* ===================================================================== *)
(** ** base_resource_endpoint.ts *)
(* ===================================================================== *)

(** [/^Bearer\s*([^\s]+)\s*$/i]. *)
Definition BEARER_PATTERN : regexp :=
  mkRegExp
    ([TBol] ++ List.map (fun c => TChar (CLit c)) (lit "Bearer")
      ++ [TStar CSpace; TGroupPlus CNotSpace; TStar CSpace; TEol])
    true.

(** A task: [() => Promise<Response>]. *)
Definition Task : Type := M Response.

Definition executeTask (task : Task) : M Response :=
  try_catch
    task
    (fun e =>
       run! console_log e in
       ret (internalServerError (lit "Something went wrong."))).

(** [appendHeaders(targetHeaders, sourceHeaders?)]; the target is updated in
    place in the source and returned here. *)
Definition appendHeaders (targetHeaders : Headers.t)
    (sourceHeaders : option Headers.t) : Headers.t :=
  match sourceHeaders with
  | Some src =>
      fold_left (fun tgt e => Headers.append tgt (fst e) (snd e))
                (Headers.entries src) targetHeaders
  | None => targetHeaders
  end.

Module BaseResourceEndpoint.

Definition getRequest (c : IContext) : ServerRequest := request c.

Definition getQueryParameters (c : IContext) : gmap jsstring jsstring := params c.

Definition getRequestBodyAsObject (c : IContext) : gmap jsstring jsstring :=
  reqBody c.

Definition getRequestMethod (c : IContext) : jsstring := method (getRequest c).

Definition getRequestHeaders (c : IContext) : Headers.t :=
  req_headers (getRequest c).

Definition getRequestContentType (c : IContext) : option jsstring :=
  Headers.get (getRequestHeaders c) (lit "Content-Type").

Definition getAuthorization (c : IContext) : option jsstring :=
  Headers.get (getRequestHeaders c) (lit "Authorization").

(** The new headers object: the entries of the context's headers are
    appended to it, then those of the response's. *)
Definition mergedHeaders (c : IContext) (response : Response) : Headers.t :=
  appendHeaders (appendHeaders Headers.empty (ctx_headers c)) (headers response).

(** [setupResponseHeaders(response)]: the response with its [headers] field
    set to the new headers object. *)
Definition setupResponseHeaders (c : IContext) (response : Response) : Response :=
  set_headers (Some (mergedHeaders c response)) response.

Definition handleResponse (response : Response) : M unit :=
  run! modify (fun w => set_context (set_disableRespond true (context w)) w) in
  let! c := get_context in
  respond (setupResponseHeaders c response).

Definition process (task : Task) : M unit :=
  let! response := executeTask task in
  handleResponse response.

(** The message of the 400 response: the template literal of the source. *)
Definition contentTypeMessage (type : jsstring) : jsstring :=
  lit "Request 'Content-Type' must be '" ++ type ++ lit "'.".

Definition processForContentType (type : jsstring) (task : Task) : M unit :=
  process
    (let! c := get_context in
     if negb (bool_decide (getRequestContentType c = Some type))
     then ret (badRequest (contentTypeMessage type))
     else task).

Definition processForApplicationFormUrlEncoded (task : Task) : M unit :=
  processForContentType APPLICATION_FORM_URLENCODED task.

(** [extractAccessToken()]: [None] is [undefined]. *)
Definition extractAccessToken (c : IContext) : option jsstring :=
  let authorization := getAuthorization c in
  let result :=
    if isNotEmpty authorization
    then exec BEARER_PATTERN (default [] authorization)
    else None in
  match result with
  | Some group1 => group1
  | None =>
      if bool_decide (getRequestMethod c = lit "GET")
      then getQueryParameters c !! lit "access_token"
      else if bool_decide (getRequestContentType c = Some APPLICATION_FORM_URLENCODED)
      then getRequestBodyAsObject c !! lit "access_token"
      else None
  end.

Section Validator.

(** [new AccessTokenValidator(api).validate(token, scopes, subject)]: the
    collaborator that asks the authorization service. *)
Variable validate :
  option jsstring -> option (list jsstring) -> option jsstring ->
  M AccessTokenValidator.

Definition validateAccessToken (requiredScopes : option (list jsstring))
    (requestedSubject : option jsstring) : M AccessTokenValidator :=
  let! c := get_context in
  let accessToken := extractAccessToken c in
  validate accessToken requiredScopes requestedSubject.

End Validator.

End BaseResourceEndpoint.

Import BaseResourceEndpoint.

(* ===================================================================== *)
(** ** time_endpoint.ts *)
(* ===================================================================== *)

Module TimeEndpoint.

(** The object [buildResponse] serializes. *)
Record TimeResult : Type := mkTimeResult {
  year : Z;
  month : Z;
  day : Z;
  hour : Z;
  minute : Z;
  second : Z;
  millisecond : Z
}.

(** The object literal of [buildResponse], for [now = new Date()]. *)
Definition buildResult (tza : Z -> Z) (t : Z) : TimeResult :=
  mkTimeResult
    (Date.getUTCFullYear t)
    (Date.getMonth tza t + 1)
    (Date.getUTCDate t)
    (Date.getUTCHours t)
    (Date.getUTCMinutes t)
    (Date.getUTCSeconds t)
    (Date.getUTCMilliseconds t).

Definition quote : jsstring := [0x22].

Definition member (name : string) (v : Z) : jsstring :=
  quote ++ lit name ++ quote ++ lit ":" ++ ofZ v.

(** [JSON.stringify(result)]: the members in the order of the literal. *)
Definition JSON_stringify (r : TimeResult) : jsstring :=
  lit "{" ++ member "year" (year r)
  ++ lit "," ++ member "month" (month r)
  ++ lit "," ++ member "day" (day r)
  ++ lit "," ++ member "hour" (hour r)
  ++ lit "," ++ member "minute" (minute r)
  ++ lit "," ++ member "second" (second r)
  ++ lit "," ++ member "millisecond" (millisecond r)
  ++ lit "}".

Definition buildResponse : M Response :=
  fun w => (Ok (okJson (JSON_stringify (buildResult (localTZA w) (now w)))), w).

Section Validator.

Variable validate :
  option jsstring -> option (list jsstring) -> option jsstring ->
  M AccessTokenValidator.

Definition handle : M Response :=
  let! validator := validateAccessToken validate None None in
  if negb (isValid validator)
  then ret (errorResponse validator)
  else buildResponse.

Definition get : M unit := process handle.

Definition post : M unit := processForApplicationFormUrlEncoded handle.

End Validator.

End TimeEndpoint.

(* ===================================================================== *)
(** ** What the bearer pattern says, read off its text *)
(* ===================================================================== *)

(** [a] has the form the pattern [^Bearer\s*(\S+)\s*$] describes, without
    regard to the case of the word, and [T] is the part the group stands
    for: the word, white space, a non-empty run [T] free of white space,
    white space, and nothing else. *)
Definition bearerMatch (a T : jsstring) : Prop :=
  exists b ws1 ws2 : jsstring,
    a = b ++ ws1 ++ T ++ ws2
    /\ List.map canonicalize b = List.map canonicalize (lit "Bearer")
    /\ Forall (fun x => isSpace x = true) ws1
    /\ T <> []
    /\ Forall (fun x => isSpace x = false) T
    /\ Forall (fun x => isSpace x = true) ws2.

(** The tail of the pattern, after the word. *)
Definition bearerTail : list term :=
  [TStar CSpace; TGroupPlus CNotSpace; TStar CSpace; TEol].



(* ===================================================================== *)
(** ** user_info_endpoint.ts *)
(* ===================================================================== *)

Module UserInfoEndpoint.

Section Handler.

(** [new UserInfoRequestHandler(api, spi).handle({ accessToken })]: the
    library's handler of userinfo requests, given the access token. *)
Variable requestHandler : option jsstring -> M Response.

Definition handle : M Response :=
  let! c := get_context in
  let accessToken := extractAccessToken c in
  requestHandler accessToken.

Definition get : M unit := process handle.

Definition post : M unit := processForApplicationFormUrlEncoded handle.

End Handler.

End UserInfoEndpoint.

(* ===================================================================== *)
(** ** Reading a request and a time back *)
(* ===================================================================== *)

(** The context with other query parameters, and with another body. *)
Definition set_params (q : gmap jsstring jsstring) (c : IContext) : IContext :=
  mkContext (request c) q (reqBody c) (ctx_headers c) (disableRespond c).

Definition set_reqBody (b : gmap jsstring jsstring) (c : IContext) : IContext :=
  mkContext (request c) (params c) b (ctx_headers c) (disableRespond c).

(** A code unit that is not white space: what [[^\s]] stands for. *)
Definition notSpace (x : char) : bool := negb (isSpace x).

Module DateMake.

Import Date.
Local Open Scope Z_scope.

(** The abstract operations MakeTime, MakeDay and MakeDate of the language,
    on integers, and [Date.UTC] built from them. *)
Definition MakeTime (hour min sec ms : Z) : Z :=
  hour * msPerHour + min * msPerMinute + sec * msPerSecond + ms.

(** The day of the year on which month [mn] (from 0) starts; [leap] is 1 in
    a leap year. *)
Definition monthStart (mn leap : Z) : Z :=
  match mn with
  | 0 => 0
  | 1 => 31
  | 2 => 59 + leap
  | 3 => 90 + leap
  | 4 => 120 + leap
  | 5 => 151 + leap
  | 6 => 181 + leap
  | 7 => 212 + leap
  | 8 => 243 + leap
  | 9 => 273 + leap
  | 10 => 304 + leap
  | _ => 334 + leap
  end.

Definition MakeDay (year month date : Z) : Z :=
  let ym := year + month / 12 in
  let mn := month mod 12 in
  let leap := if DaysInYear ym =? 365 then 0 else 1 in
  DayFromYear ym + monthStart mn leap + date - 1.

Definition MakeDate (day time : Z) : Z := day * msPerDay + time.

(** TimeClip: a time value out of the range of [Date] is NaN ([None]). *)
Definition TimeClip (time : Z) : option Z :=
  if 8640000000000000 <? Z.abs time then None else Some time.

(** [Date.UTC(year, month, date, hours, minutes, seconds, ms)]: a year from
    0 to 99 stands for 1900 + year. *)
Definition UTC (year month date hours minutes seconds ms : Z) : option Z :=
  let yr := if (0 <=? year) && (year <=? 99) then 1900 + year else year in
  TimeClip (MakeDate (MakeDay yr month date) (MakeTime hours minutes seconds ms)).

(** The instant a body of the time endpoint names, read as UTC with the
    month counted from 1. *)
Definition instantOf (r : TimeEndpoint.TimeResult) : option Z :=
  UTC (TimeEndpoint.year r) (TimeEndpoint.month r - 1) (TimeEndpoint.day r)
      (TimeEndpoint.hour r) (TimeEndpoint.minute r) (TimeEndpoint.second r)
      (TimeEndpoint.millisecond r).

End DateMake.

(* ===================================================================== *)
(** ** Sample requests *)
(* ===================================================================== *)

Module Sample.

Definition contextOf (m : jsstring) (hs : Headers.t)
    (q b : gmap jsstring jsstring) : IContext :=
  mkContext (mkServerRequest m hs) q b
            (Some [(lit "set-cookie", lit "fen-session=1")]) false.

Definition worldOf (c : IContext) : World :=
  mkWorld c [] [] [] 1580513400000%Z (fun _ => 0%Z).

(** GET with a bearer header and, besides, a token in the query. *)
Definition bearerGet : IContext :=
  contextOf (lit "GET") [(lit "Authorization", lit "Bearer abc")]
            {[ lit "access_token" := lit "other" ]} ∅.

(** GET with another scheme in the header and a token in the query. *)
Definition basicGet : IContext :=
  contextOf (lit "GET") [(lit "Authorization", lit "Basic dXNlcg==")]
            {[ lit "access_token" := lit "tok" ]} ∅.

(** POST of a form with the token in the body. *)
Definition formPost : IContext :=
  contextOf (lit "POST")
            [(lit "Content-Type", lit "application/x-www-form-urlencoded")]
            ∅ {[ lit "access_token" := lit "tok" ]}.

(** GET that declares a form and carries a token in the body only. *)
Definition formGet : IContext :=
  contextOf (lit "GET")
            [(lit "Content-Type", lit "application/x-www-form-urlencoded")]
            ∅ {[ lit "access_token" := lit "tok" ]}.

(** POST of JSON. *)
Definition jsonPost : IContext :=
  contextOf (lit "POST") [(lit "Content-Type", lit "application/json")] ∅ ∅.

(** A task that calls the authorization service and answers 204. *)
Definition callingTask : Task :=
  fun w =>
    (Ok (mkResponse (Some 204%Z) None None),
     mkWorld (context w) (responded w) (console w)
             (remote w ++ [lit "introspection"]) (now w) (localTZA w)).

(** A task that calls the authorization service and fails. *)
Definition failingTask : Task :=
  fun w =>
    (Throw (VError (lit "TypeError") (lit "connection refused")),
     mkWorld (context w) (responded w) (console w)
             (remote w ++ [lit "introspection"]) (now w) (localTZA w)).

(** A validator that rejects every token with a 401 response. *)
Definition unauthorized : Response :=
  mkResponse (Some 401%Z)
             (Some [(lit "WWW-Authenticate", lit "Bearer error=invalid_token")])
             None.

Definition rejecting (token : option jsstring) (scopes : option (list jsstring))
    (subject : option jsstring) : M AccessTokenValidator :=
  fun w =>
    (Ok (mkValidator false unauthorized),
     mkWorld (context w) (responded w) (console w)
             (remote w ++ [lit "introspection"]) (now w) (localTZA w)).

(** The last half hour of January 2020 in UTC (2020-01-31T23:30:00.000Z),
    on a host one hour ahead of UTC. *)
Definition lateJanuary : World :=
  mkWorld bearerGet [] [] [] 1580513400000%Z (fun _ => 3600000%Z).

(** The validator that accepts every token. *)
Definition accepting (token : option jsstring) (scopes : option (list jsstring))
    (subject : option jsstring) : M AccessTokenValidator :=
  fun w => (Ok (mkValidator true unauthorized), w).

End Sample.

Module SampleMore.

(** A validator whose call to the authorization service fails. *)
Definition unreachable (token : option jsstring) (scopes : option (list jsstring))
    (subject : option jsstring) : M AccessTokenValidator :=
  fun w =>
    (Throw (VError (lit "Error") (lit "connection refused")),
     mkWorld (context w) (responded w) (console w)
             (remote w ++ [lit "introspection"]) (now w) (localTZA w)).

(** A userinfo handler that answers 200 with the token it was given. *)
Definition echoing (token : option jsstring) : M Response :=
  fun w =>
    (Ok (mkResponse (Some 200%Z)
           (Some [(lit "Content-Type", lit "application/json")]) token),
     mkWorld (context w) (responded w) (console w)
             (remote w ++ [lit "userinfo"]) (now w) (localTZA w)).

(** GET with the word only in the header, and a token in the query. *)
Definition wordOnlyGet : IContext :=
  Sample.contextOf (lit "GET") [(lit "Authorization", lit "Bearer ")]
                   {[ lit "access_token" := lit "tok" ]} ∅.

(** PUT of JSON that carries a token in the query and in the body. *)
Definition jsonPut : IContext :=
  Sample.contextOf (lit "PUT") [(lit "Content-Type", lit "application/json")]
                   {[ lit "access_token" := lit "q" ]}
                   {[ lit "access_token" := lit "b" ]}.

(** Context headers [{A: 1}] and handler headers [{A: 2, B: 3}]. *)
Definition contextA1 : IContext :=
  mkContext (mkServerRequest (lit "GET") []) ∅ ∅ (Some [(lit "A", lit "1")]) false.

Definition responseA2B3 : Response :=
  mkResponse (Some 200%Z) (Some [(lit "A", lit "2"); (lit "B", lit "3")]) None.



End SampleMore.

(* ===================================================================== *)
(** ** The matcher against the reading of the pattern *)
(* ===================================================================== *)

Section Matcher.

Context {R : Type}.
Variable p : char -> bool.
Variable k : jsstring -> nat -> jsstring -> option R.

(** A successful loop stopped after some run of matching characters. *)
Lemma star_acc_inv (s : jsstring) : forall acc pos r,
  star_acc p k acc pos s = Some r ->
  exists u v, s = u ++ v /\ Forall (fun x => p x = true) u
              /\ k (acc ++ u) (pos + length u)%nat v = Some r.
Proof.
  induction s as [|x s IH]; intros acc pos r H; simpl in H.
  - exists [], []. rewrite (app_nil_r acc), Nat.add_0_r. auto.
  - destruct (p x) eqn:Hx.
    + destruct (star_acc p k (acc ++ [x]) (S pos) s) as [r'|] eqn:Hs.
      * inversion H; subst r'. apply IH in Hs as (u & v & -> & Hu & Hk).
        exists (x :: u), v. split; [reflexivity|]. split; [constructor; auto|].
        rewrite <- app_assoc in Hk. simpl in *.
        now rewrite Nat.add_succ_r.
      * exists [], (x :: s). rewrite (app_nil_r acc), Nat.add_0_r. auto.
    + exists [], (x :: s). rewrite (app_nil_r acc), Nat.add_0_r. auto.
Qed.

(** The loop first tries the longest run. *)
Lemma star_acc_longest (u v : jsstring) : forall acc pos r,
  Forall (fun x => p x = true) u ->
  match v with [] => True | x :: _ => p x = false end ->
  k (acc ++ u) (pos + length u)%nat v = Some r ->
  star_acc p k acc pos (u ++ v) = Some r.
Proof.
  induction u as [|x u IH]; intros acc pos r Hu Hv Hk; simpl.
  - rewrite (app_nil_r acc), Nat.add_0_r in Hk.
    destruct v as [|y v]; simpl; [assumption|]. now rewrite Hv.
  - inversion Hu as [|? ? Hx Hu']; subst. rewrite Hx.
    rewrite (IH (acc ++ [x]) (S pos) r); auto.
    rewrite <- app_assoc. simpl in *. now rewrite Nat.add_succ_r in Hk.
Qed.

End Matcher.

(** A run of pattern characters matches a prefix of the same length,
    character by character. *)
Lemma matcher_literal (ic : bool) (l : list char) (ts : list term) :
  forall pos s cap r,
    matcher ic (List.map (fun c => TChar (CLit c)) l ++ ts) pos s cap = Some r <->
    exists b rest, s = b ++ rest
      /\ Forall2 (fun x c => cls_match ic (CLit c) x = true) b l
      /\ matcher ic ts (pos + length l)%nat rest cap = Some r.
Proof.
  induction l as [|c l IH]; intros pos s cap r; simpl.
  - rewrite Nat.add_0_r. split.
    + intros H. exists [], s. repeat split; auto.
    + intros (b & rest & -> & Hb & H). inversion Hb; subst. exact H.
  - destruct s as [|x s].
    + split; [discriminate|].
      intros (b & rest & Hs & Hb & _). inversion Hb; subst. discriminate.
    + destruct (if ic then canonicalize x =? canonicalize c else x =? c) eqn:Hx.
      * rewrite IH. split.
        -- intros (b & rest & -> & Hb & H). exists (x :: b), rest.
           split; [reflexivity|]. split; [constructor; auto|].
           now rewrite Nat.add_succ_r.
        -- intros (b & rest & Hs & Hb & H). inversion Hb; subst.
           simpl in Hs. inversion Hs; subst. eexists _, rest.
           split; [reflexivity|]. split; [assumption|].
           now rewrite Nat.add_succ_r in H.
      * split; [discriminate|].
        intros (b & rest & Hs & Hb & _). inversion Hb as [|? ? ? ? Hc]; subst.
        simpl in Hs. inversion Hs; subst. simpl in Hc. congruence.
Qed.

Lemma Forall2_canonicalize (b l : list char) :
  Forall2 (fun x c => cls_match true (CLit c) x = true) b l <->
  List.map canonicalize b = List.map canonicalize l.
Proof.
  split.
  - induction 1 as [|x c b l Hx _ IH]; simpl; [reflexivity|].
    simpl in Hx. apply N.eqb_eq in Hx. congruence.
  - revert l. induction b as [|x b IH]; intros [|c l] H; simpl in H;
      try discriminate; constructor.
    + simpl. apply N.eqb_eq. congruence.
    + apply IH. congruence.
Qed.

(** Away from index 0 the pattern cannot match: it starts with [^]. *)
Lemma exec_from_bearer_later (s : jsstring) : forall pos,
  exec_from BEARER_PATTERN (S pos) s = None.
Proof.
  induction s as [|x s IH]; intros pos; simpl; [reflexivity|apply IH].
Qed.

Lemma exec_bearer_at_0 (a : jsstring) :
  exec BEARER_PATTERN a
  = matcher true (source BEARER_PATTERN) 0 a None.
Proof.
  unfold exec. destruct a as [|x a]; cbn [exec_from].
  - now destruct (matcher _ _ _ _ _).
  - rewrite exec_from_bearer_later. now destruct (matcher _ _ _ _ _).
Qed.

Lemma bearerTail_inv (pos : nat) (s : jsstring) (cap r : option jsstring) :
  matcher true bearerTail pos s cap = Some r ->
  exists ws1 T ws2, s = ws1 ++ T ++ ws2
    /\ Forall (fun x => isSpace x = true) ws1
    /\ T <> []
    /\ Forall (fun x => isSpace x = false) T
    /\ Forall (fun x => isSpace x = true) ws2
    /\ r = Some T.
Proof.
  unfold bearerTail. cbn [matcher]. intros H.
  apply star_acc_inv in H as (ws1 & s1 & -> & Hws1 & H).
  unfold plus_acc in H. destruct s1 as [|x s1]; [discriminate|].
  destruct (cls_match true CNotSpace x) eqn:Hx; [|discriminate].
  apply star_acc_inv in H as (t & s2 & -> & Ht & H).
  apply star_acc_inv in H as (ws2 & s3 & -> & Hws2 & H).
  destruct s3; [|discriminate]. cbn [matcher] in H. inversion H; subst r.
  exists ws1, (x :: t), ws2. rewrite app_nil_r. simpl.
  repeat split; auto; try discriminate.
  constructor.
  - now apply negb_true_iff in Hx.
  - eapply Forall_impl; [exact Ht|]. intros y Hy. now apply negb_true_iff in Hy.
Qed.

Lemma bearerTail_intro (pos : nat) (ws1 T ws2 : jsstring) (cap : option jsstring) :
  Forall (fun x => isSpace x = true) ws1 ->
  T <> [] ->
  Forall (fun x => isSpace x = false) T ->
  Forall (fun x => isSpace x = true) ws2 ->
  matcher true bearerTail pos (ws1 ++ T ++ ws2) cap = Some (Some T).
Proof.
  intros Hws1 HT Hns Hws2. unfold bearerTail. cbn [matcher].
  destruct T as [|x t]; [congruence|]. inversion Hns as [|? ? Hx Ht]; subst.
  apply star_acc_longest; [assumption|simpl; now rewrite Hx|].
  unfold plus_acc. cbn [app cls_match]. rewrite Hx. cbn [negb].
  apply star_acc_longest.
  - eapply Forall_impl; [exact Ht|]. intros y Hy. simpl. now rewrite Hy.
  - destruct ws2 as [|y ws2]; [exact I|]. inversion Hws2; subst.
    simpl. now apply negb_false_iff.
  - rewrite <- (app_nil_r ws2). apply star_acc_longest; [assumption|exact I|].
    reflexivity.
Qed.

(** [exec] on the bearer pattern succeeds exactly on the strings of the
    form the pattern describes, and element 1 of the result is the token. *)
Lemma exec_bearer_iff (a : jsstring) (r : option jsstring) :
  exec BEARER_PATTERN a = Some r <-> exists T, r = Some T /\ bearerMatch a T.
Proof.
  rewrite exec_bearer_at_0.
  change (source BEARER_PATTERN)
    with (TBol :: List.map (fun c => TChar (CLit c)) (lit "Bearer") ++ bearerTail).
  cbn [matcher Nat.eqb]. rewrite matcher_literal. split.
  - intros (b & rest & -> & Hb & H). apply Forall2_canonicalize in Hb.
    apply bearerTail_inv in H as (ws1 & T & ws2 & -> & H1 & H2 & H3 & H4 & ->).
    exists T. split; [reflexivity|]. exists b, ws1, ws2. auto 10.
  - intros (T & -> & b & ws1 & ws2 & -> & Hb & H1 & H2 & H3 & H4).
    exists b, (ws1 ++ T ++ ws2). split; [reflexivity|].
    split; [now apply Forall2_canonicalize|]. now apply bearerTail_intro.
Qed.

Lemma exec_bearer_Some (a T : jsstring) :
  bearerMatch a T -> exec BEARER_PATTERN a = Some (Some T).
Proof. intros H. apply exec_bearer_iff. eauto. Qed.

Lemma exec_bearer_None (a : jsstring) :
  exec BEARER_PATTERN a = None <-> forall T, ~ bearerMatch a T.
Proof.
  split.
  - intros H T HT. apply exec_bearer_Some in HT. congruence.
  - intros H. destruct (exec BEARER_PATTERN a) as [r|] eqn:He; [|reflexivity].
    apply exec_bearer_iff in He as (T & _ & HT). now apply H in HT.
Qed.

(** The token of a header is unique. *)
Lemma bearerMatch_functional (a T T' : jsstring) :
  bearerMatch a T -> bearerMatch a T' -> T = T'.
Proof.
  intros H H'. apply exec_bearer_Some in H, H'. congruence.
Qed.

Lemma bearerMatch_nonempty (a T : jsstring) : bearerMatch a T -> a <> [].
Proof.
  intros (b & ws1 & ws2 & -> & Hb & _) Hnil.
  destruct b; [discriminate|discriminate].
Qed.

(* ===================================================================== *)
(** ** Extraction of the access token *)
(* ===================================================================== *)

(** Without a header of the bearer form, extraction goes on to the query
    (GET) or to the form body (content type of a form). *)
Lemma extractAccessToken_fallthrough (c : IContext) :
  (forall a T, getAuthorization c = Some a -> ~ bearerMatch a T) ->
  extractAccessToken c =
    if bool_decide (getRequestMethod c = lit "GET")
    then getQueryParameters c !! lit "access_token"
    else if bool_decide (getRequestContentType c = Some APPLICATION_FORM_URLENCODED)
    then getRequestBodyAsObject c !! lit "access_token"
    else None.
Proof.
  intros Hno. unfold extractAccessToken.
  destruct (getAuthorization c) as [a|] eqn:Ha; [|reflexivity].
  destruct (isNotEmpty (Some a)); [|reflexivity].
  change (default [] (Some a)) with a.
  replace (exec BEARER_PATTERN a) with (@None (option jsstring));
    [reflexivity|].
  symmetry. apply exec_bearer_None. intros T. now apply Hno.
Qed.

(** C2: when the Authorization header is present, non-empty and of the form
    of the bearer pattern with token [T], [extractAccessToken] returns [T],
    whatever the method, the query parameters and the body are. *)
Theorem extractAccessToken_bearer_header (c : IContext) (a T : jsstring) :
  getAuthorization c = Some a ->
  a <> [] ->
  bearerMatch a T ->
  extractAccessToken c = Some T.
Proof.
  intros Ha Hne Hm. unfold extractAccessToken. rewrite Ha.
  destruct a as [|x a]; [congruence|]. cbn [isNotEmpty].
  change (default [] (Some (x :: a))) with (x :: a).
  now rewrite (exec_bearer_Some _ _ Hm).
Qed.

Lemma extractAccessToken_bearer_header_witness :
  getAuthorization Sample.bearerGet = Some (lit "Bearer abc")
  /\ lit "Bearer abc" <> []
  /\ bearerMatch (lit "Bearer abc") (lit "abc")
  /\ extractAccessToken Sample.bearerGet = Some (lit "abc").
Proof.
  assert (Hm : bearerMatch (lit "Bearer abc") (lit "abc")).
  { exists (lit "Bearer"), (lit " "), []. vm_compute.
    repeat split; try discriminate; repeat constructor. }
  split; [reflexivity|]. split; [discriminate|]. split; [exact Hm|].
  apply (extractAccessToken_bearer_header Sample.bearerGet (lit "Bearer abc"));
    [reflexivity|discriminate|exact Hm].
Defined.

(** C3: on a GET request whose Authorization header is present but not of
    the bearer form, with [access_token=T] in the query, extraction returns
    [T]: the header does not end the search. *)
Theorem extractAccessToken_malformed_header_get (c : IContext) (a T : jsstring) :
  getRequestMethod c = lit "GET" ->
  getAuthorization c = Some a ->
  (forall T', ~ bearerMatch a T') ->
  getQueryParameters c !! lit "access_token" = Some T ->
  extractAccessToken c = Some T.
Proof.
  intros Hget Ha Hno Hq. rewrite extractAccessToken_fallthrough.
  - now rewrite bool_decide_eq_true_2.
  - intros a' T' Ha'. rewrite Ha in Ha'. inversion Ha'; subst. apply Hno.
Qed.

Lemma extractAccessToken_malformed_header_get_witness :
  getRequestMethod Sample.basicGet = lit "GET"
  /\ getAuthorization Sample.basicGet = Some (lit "Basic dXNlcg==")
  /\ (forall T', ~ bearerMatch (lit "Basic dXNlcg==") T')
  /\ extractAccessToken Sample.basicGet = Some (lit "tok").
Proof.
  assert (Hno : forall T', ~ bearerMatch (lit "Basic dXNlcg==") T').
  { apply exec_bearer_None. vm_compute. reflexivity. }
  split; [reflexivity|]. split; [reflexivity|]. split; [exact Hno|].
  apply (extractAccessToken_malformed_header_get Sample.basicGet
           (lit "Basic dXNlcg==") (lit "tok"));
    [reflexivity|reflexivity|exact Hno|vm_compute; reflexivity].
Defined.

(** C7: on a POST request whose content type is exactly
    [application/x-www-form-urlencoded], with no Authorization header of the
    bearer form (absent, empty or malformed) and [access_token=T] in the
    decoded body, extraction returns [T]. *)
Theorem extractAccessToken_form_body_post (c : IContext) (T : jsstring) :
  getRequestMethod c = lit "POST" ->
  getRequestContentType c = Some APPLICATION_FORM_URLENCODED ->
  (forall a T', getAuthorization c = Some a -> ~ bearerMatch a T') ->
  getRequestBodyAsObject c !! lit "access_token" = Some T ->
  extractAccessToken c = Some T.
Proof.
  intros Hpost Hct Hno Hb. rewrite extractAccessToken_fallthrough by exact Hno.
  rewrite bool_decide_eq_false_2.
  - now rewrite bool_decide_eq_true_2.
  - rewrite Hpost. vm_compute. discriminate.
Qed.

Lemma extractAccessToken_form_body_post_witness :
  getRequestMethod Sample.formPost = lit "POST"
  /\ getRequestContentType Sample.formPost = Some APPLICATION_FORM_URLENCODED
  /\ getAuthorization Sample.formPost = None
  /\ extractAccessToken Sample.formPost = Some (lit "tok").
Proof.
  split; [reflexivity|]. split; [reflexivity|]. split; [reflexivity|].
  apply (extractAccessToken_form_body_post Sample.formPost (lit "tok"));
    [reflexivity|reflexivity| |vm_compute; reflexivity].
  intros a T' Ha. vm_compute in Ha. discriminate.
Defined.

(** C10: on a GET request with no Authorization header of the bearer form,
    extraction returns the [access_token] query parameter, absent when the
    parameter is; the body is not consulted, whatever the content type and
    the body are. *)
Theorem extractAccessToken_get_query_only (c : IContext) :
  getRequestMethod c = lit "GET" ->
  (forall a T', getAuthorization c = Some a -> ~ bearerMatch a T') ->
  extractAccessToken c = getQueryParameters c !! lit "access_token"
  /\ forall b' : gmap jsstring jsstring,
       extractAccessToken
         (mkContext (request c) (params c) b' (ctx_headers c) (disableRespond c))
       = extractAccessToken c.
Proof.
  intros Hget Hno.
  assert (H : forall b',
    extractAccessToken
      (mkContext (request c) (params c) b' (ctx_headers c) (disableRespond c))
    = getQueryParameters c !! lit "access_token").
  { intros b'. rewrite extractAccessToken_fallthrough by exact Hno.
    now rewrite bool_decide_eq_true_2. }
  split.
  - rewrite <- (H (reqBody c)). now destruct c.
  - intros b'. rewrite (H b'), <- (H (reqBody c)). now destruct c.
Qed.

Lemma extractAccessToken_get_query_only_witness :
  getRequestMethod Sample.formGet = lit "GET"
  /\ getRequestContentType Sample.formGet = Some APPLICATION_FORM_URLENCODED
  /\ getRequestBodyAsObject Sample.formGet !! lit "access_token" = Some (lit "tok")
  /\ extractAccessToken Sample.formGet = None.
Proof.
  split; [reflexivity|]. split; [reflexivity|].
  split; [vm_compute; reflexivity|].
  refine (eq_trans (proj1 (extractAccessToken_get_query_only Sample.formGet _ _)) _).
  - reflexivity.
  - intros a T' Ha. vm_compute in Ha. discriminate.
  - vm_compute. reflexivity.
Defined.

(* ===================================================================== *)
(** ** Assembly of the response *)
(* ===================================================================== *)

Module HeadersFacts.

Import Headers.

Lemma canonicalize_lower (c : char) : canonicalize (lower c) = canonicalize c.
Proof.
  unfold canonicalize, lower.
  destruct (N.leb_spec 0x41 c), (N.leb_spec c 0x5A); cbn [andb];
    repeat match goal with
           | |- context [?a <=? ?b] => destruct (N.leb_spec a b)
           end; cbn [andb]; lia.
Qed.


Lemma map_canonicalize_lowercase (a : jsstring) :
  List.map canonicalize (lowercase a) = List.map canonicalize a.
Proof.
  unfold lowercase. rewrite List.map_map. apply List.map_ext, canonicalize_lower.
Qed.





Lemma name_eqb_lowercase_l (a b : jsstring) :
  name_eqb (lowercase a) b = name_eqb a b.
Proof. unfold name_eqb. now rewrite map_canonicalize_lowercase. Qed.



















End HeadersFacts.

Module MergeFacts.

Import Headers HeadersFacts.
















End MergeFacts.




(** Context headers [{A: 1}] and handler headers [{A: 2, B: 3}]: the names
    come out in lower case and the two values of [A] as one entry. *)
Example entries_A1_A2_B3 :
  Headers.entries (mergedHeaders SampleMore.contextA1 SampleMore.responseA2B3)
  = [(lit "a", lit "1, 2"); (lit "b", lit "3")].
Proof. reflexivity. Qed.

(** An empty value at the end of a name's values does not survive the
    merge as it was: the combined value is normalized when it is appended. *)
Example get_merged_empty_value :
  Headers.get
    (mergedHeaders
       (mkContext (mkServerRequest (lit "GET") []) ∅ ∅
                  (Some [(lit "x", lit "y"); (lit "x", [])]) false)
       (mkResponse None (Some [(lit "x", lit "z")]) None))
    (lit "x")
  = Some (lit "y,, z").
Proof. reflexivity. Qed.

(** C9: the response assembler replaces the [headers] field of the handler's
    response by the merged set and sends the response with its status and
    body as they were. *)
Theorem handleResponse_frame (response : Response) (w : World) :
  handleResponse response w
  = (Ok tt,
     mkWorld (set_disableRespond true (context w))
             (responded w
              ++ [mkResponse (status response)
                             (Some (mergedHeaders (context w) response))
                             (body response)])
             (console w) (remote w) (now w) (localTZA w)).
Proof. reflexivity. Qed.

Lemma process_Ok (task : Task) (w w1 : World) (response : Response) :
  task w = (Ok response, w1) ->
  process task w = handleResponse response w1.
Proof.
  intros H. unfold process, bind, executeTask, try_catch. now rewrite H.
Qed.

(** C5: when the request's content type differs from the required one, the
    gated entry point answers 400 with the message that names the required
    type, and the world is left as if there were no task: the task is not
    run. *)
Theorem processForContentType_mismatch (type : jsstring) (task : Task) (w : World) :
  getRequestContentType (context w) <> Some type ->
  processForContentType type task w
  = (Ok tt,
     mkWorld (set_disableRespond true (context w))
             (responded w
              ++ [mkResponse (Some 400%Z)
                    (Some (mergedHeaders (context w)
                             (badRequest (contentTypeMessage type))))
                    (Some (lit "Request 'Content-Type' must be '" ++ type ++ lit "'."))])
             (console w) (remote w) (now w) (localTZA w))
  /\ contentTypeMessage APPLICATION_FORM_URLENCODED
     = lit "Request 'Content-Type' must be 'application/x-www-form-urlencoded'.".
Proof.
  intros Hne. split; [|reflexivity].
  unfold processForContentType.
  rewrite (process_Ok _ w w (badRequest (contentTypeMessage type))).
  - reflexivity.
  - unfold bind, get_context. now rewrite bool_decide_eq_false_2.
Qed.

Lemma processForContentType_mismatch_witness :
  getRequestContentType Sample.jsonPost <> Some APPLICATION_FORM_URLENCODED
  /\ processForApplicationFormUrlEncoded Sample.callingTask
       (Sample.worldOf Sample.jsonPost)
     = (Ok tt,
        mkWorld (set_disableRespond true Sample.jsonPost)
          [mkResponse (Some 400%Z)
             (Some (mergedHeaders Sample.jsonPost
                      (badRequest (contentTypeMessage APPLICATION_FORM_URLENCODED))))
             (Some (lit "Request 'Content-Type' must be 'application/x-www-form-urlencoded'."))]
          [] [] 1580513400000%Z (localTZA (Sample.worldOf Sample.jsonPost))).
Proof.
  assert (Hne : getRequestContentType Sample.jsonPost
                <> Some APPLICATION_FORM_URLENCODED).
  { vm_compute. discriminate. }
  split; [exact Hne|].
  exact (proj1 (processForContentType_mismatch APPLICATION_FORM_URLENCODED
                  Sample.callingTask (Sample.worldOf Sample.jsonPost) Hne)).
Defined.

(** The wrapper never fails: whatever the task does, the caller gets a
    response. *)
Lemma executeTask_total (task : Task) (w : World) :
  exists response w', executeTask task w = (Ok response, w').
Proof.
  unfold executeTask, try_catch. destruct (task w) as [[r|e] w1]; eauto.
Qed.

(** C6: when the task throws, whatever the thrown value is, the wrapper
    logs the value and returns the response 500 with the fixed body
    [Something went wrong.]; nothing is thrown to the caller and the thrown
    value is no part of the response. *)
Theorem executeTask_catches (task : Task) (w w1 : World) (e : Value) :
  task w = (Throw e, w1) ->
  executeTask task w
  = (Ok (mkResponse (Some 500%Z)
                    (headers (internalServerError (lit "Something went wrong.")))
                    (Some (lit "Something went wrong."))),
     mkWorld (context w1) (responded w1) (console w1 ++ [e]) (remote w1)
             (now w1) (localTZA w1)).
Proof.
  intros H. unfold executeTask, try_catch. now rewrite H.
Qed.

Lemma executeTask_catches_witness :
  Sample.failingTask (Sample.worldOf Sample.bearerGet)
  = (Throw (VError (lit "TypeError") (lit "connection refused")),
     mkWorld Sample.bearerGet [] [] [lit "introspection"] 1580513400000%Z
             (localTZA (Sample.worldOf Sample.bearerGet)))
  /\ executeTask Sample.failingTask (Sample.worldOf Sample.bearerGet)
     = (Ok (mkResponse (Some 500%Z)
                       (Some [(lit "Content-Type", lit "text/plain")])
                       (Some (lit "Something went wrong."))),
        mkWorld Sample.bearerGet [] [VError (lit "TypeError") (lit "connection refused")]
                [lit "introspection"] 1580513400000%Z
                (localTZA (Sample.worldOf Sample.bearerGet))).
Proof.
  split; [reflexivity|].
  exact (executeTask_catches Sample.failingTask (Sample.worldOf Sample.bearerGet)
           _ _ eq_refl).
Defined.

(* ===================================================================== *)
(** ** The time endpoint *)
(* ===================================================================== *)

Module DateFacts.

Import Date.
Local Open Scope Z_scope.

(** [YearFromTime] is the year of the day of [t]. *)
Lemma YearFromTime_day (t : Z) :
  DayFromYear (YearFromTime t) <= Day t < DayFromYear (YearFromTime t + 1).
Proof.
  unfold YearFromTime. generalize (Day t). intros d.
  set (y := 1970 + d * 400 / 146097).
  assert (Hy : 146097 * (y - 1970) <= d * 400 < 146097 * (y - 1970) + 146097).
  { unfold y. pose proof (Z.div_mod (d * 400) 146097 ltac:(lia)).
    pose proof (Z.mod_pos_bound (d * 400) 146097 ltac:(lia)). lia. }
  clearbody y.
  destruct (Z.leb_spec (DayFromYear (y + 1)) d) as [H1|H1].
  - split; [assumption|]. unfold DayFromYear in *.
    Z.div_mod_to_equations; lia.
  - destruct (Z.leb_spec (DayFromYear y) d) as [H2|H2].
    + split; assumption.
    + replace (y - 1 + 1) with y by lia. split; [|assumption].
      unfold DayFromYear in *. Z.div_mod_to_equations; lia.
Qed.

Lemma DayFromYear_mono (y1 y2 : Z) :
  y1 <= y2 -> DayFromYear y1 <= DayFromYear y2.
Proof.
  intros H. unfold DayFromYear. Z.div_mod_to_equations; lia.
Qed.

Lemma DayFromYear_step (y : Z) :
  DayFromYear (y + 1) = DayFromYear y + DaysInYear y.
Proof.
  unfold DayFromYear, DaysInYear.
  destruct (Z.eqb_spec (y mod 4) 0), (Z.eqb_spec (y mod 100) 0),
    (Z.eqb_spec (y mod 400) 0); cbn [negb]; Z.div_mod_to_equations; lia.
Qed.

(** The definition of the language: the largest year that starts at or
    before [t]. *)
Lemma YearFromTime_largest (t y : Z) :
  TimeFromYear y <= t <-> y <= YearFromTime t.
Proof.
  pose proof (YearFromTime_day t) as [Hlo Hhi].
  assert (Hd : forall z, TimeFromYear z <= t <-> DayFromYear z <= Day t).
  { intros z. unfold TimeFromYear, Day, msPerDay. Z.div_mod_to_equations; lia. }
  rewrite Hd. split; intros H.
  - destruct (Z.le_gt_cases y (YearFromTime t)) as [|Hgt]; [assumption|].
    pose proof (DayFromYear_mono (YearFromTime t + 1) y ltac:(lia)). lia.
  - pose proof (DayFromYear_mono y (YearFromTime t) H). lia.
Qed.

Lemma MonthFromTime_range (t : Z) : 0 <= MonthFromTime t <= 11.
Proof.
  unfold MonthFromTime.
  repeat match goal with |- context [if ?b then _ else _] => destruct b end; lia.
Qed.

End DateFacts.

(** On a host whose local time is UTC at the instant of the request, the
    month of the response is the calendar month in UTC, counted from 1. *)
Lemma buildResult_month_utc_host (tza : Z -> Z) (t : Z) :
  tza t = 0%Z ->
  TimeEndpoint.month (TimeEndpoint.buildResult tza t)
  = (Date.getUTCMonth t + 1)%Z.
Proof.
  intros H. cbn [TimeEndpoint.buildResult TimeEndpoint.month].
  unfold Date.getMonth, Date.getUTCMonth, Date.LocalTime.
  now rewrite H, Z.add_0_r.
Qed.

(** In general the month is the one of local time. *)
Lemma buildResult_month_local (tza : Z -> Z) (t : Z) :
  TimeEndpoint.month (TimeEndpoint.buildResult tza t)
  = (Date.MonthFromTime (t + tza t) + 1)%Z.
Proof. reflexivity. Qed.

Lemma handle_valid_token
    (validate : option jsstring -> option (list jsstring) -> option jsstring ->
                M AccessTokenValidator)
    (w w1 : World) (v : AccessTokenValidator) :
  validate (extractAccessToken (context w)) None None w = (Ok v, w1) ->
  isValid v = true ->
  TimeEndpoint.handle validate w = TimeEndpoint.buildResponse w1.
Proof.
  intros Hv Hvalid.
  unfold TimeEndpoint.handle, validateAccessToken, bind, get_context.
  now rewrite Hv, Hvalid.
Qed.

(** C1: the month of the time endpoint at 2020-01-31T23:30:00.000Z on a
    host one hour ahead of UTC: the request carries a valid bearer token and
    the response is 200 with a JSON body, whose month is 2 although the
    month in UTC is January and the day of the same body is the 31st. *)
Theorem handle_late_january_month :
  TimeEndpoint.handle Sample.accepting Sample.lateJanuary
  = (Ok (mkResponse (Some 200%Z)
           (Some [(lit "Content-Type", lit "application/json")])
           (Some (TimeEndpoint.JSON_stringify
                    (TimeEndpoint.mkTimeResult 2020 2 31 23 30 0 0)))),
     Sample.lateJanuary)
  /\ (Date.getUTCMonth (now Sample.lateJanuary) + 1 = 1)%Z.
Proof. split; vm_compute; reflexivity. Qed.

(** C8: when the validator reports the token as invalid, [handle] returns
    the validator's error response as it is, in the world the validator
    left: no success response is built. *)
Theorem handle_invalid_token
    (validate : option jsstring -> option (list jsstring) -> option jsstring ->
                M AccessTokenValidator)
    (w w1 : World) (v : AccessTokenValidator) :
  validate (extractAccessToken (context w)) None None w = (Ok v, w1) ->
  isValid v = false ->
  TimeEndpoint.handle validate w = (Ok (errorResponse v), w1).
Proof.
  intros Hv Hinvalid.
  unfold TimeEndpoint.handle, validateAccessToken, bind, get_context.
  now rewrite Hv, Hinvalid.
Qed.

Lemma handle_invalid_token_witness :
  Sample.rejecting (extractAccessToken Sample.bearerGet) None None
                   (Sample.worldOf Sample.bearerGet)
  = (Ok (mkValidator false Sample.unauthorized),
     mkWorld Sample.bearerGet [] [] [lit "introspection"] 1580513400000%Z
             (localTZA (Sample.worldOf Sample.bearerGet)))
  /\ TimeEndpoint.handle Sample.rejecting (Sample.worldOf Sample.bearerGet)
     = (Ok Sample.unauthorized,
        mkWorld Sample.bearerGet [] [] [lit "introspection"] 1580513400000%Z
                (localTZA (Sample.worldOf Sample.bearerGet))).
Proof.
  split; [reflexivity|].
  exact (handle_invalid_token Sample.rejecting (Sample.worldOf Sample.bearerGet)
           _ (mkValidator false Sample.unauthorized) eq_refl eq_refl).
Defined.

(* ===================================================================== *)
(** ** Worked requests *)
(* ===================================================================== *)

Example exec_bearer_plain :
  exec BEARER_PATTERN (lit "Bearer abc") = Some (Some (lit "abc")).
Proof. reflexivity. Qed.

Example exec_bearer_case_and_spaces :
  exec BEARER_PATTERN (lit "bEARER" ++ [0x09; 0x20] ++ lit "a.b-c" ++ [0xA0])
  = Some (Some (lit "a.b-c")).
Proof. reflexivity. Qed.

Example exec_bearer_no_space :
  exec BEARER_PATTERN (lit "Bearerabc") = Some (Some (lit "abc")).
Proof. reflexivity. Qed.

Example exec_bearer_two_tokens : exec BEARER_PATTERN (lit "Bearer a b") = None.
Proof. reflexivity. Qed.

Example exec_bearer_no_token : exec BEARER_PATTERN (lit "Bearer ") = None.
Proof. reflexivity. Qed.

Example exec_bearer_leading_space : exec BEARER_PATTERN (lit " Bearer abc") = None.
Proof. reflexivity. Qed.

(** The header wins over the query. *)
Example extract_bearerGet :
  extractAccessToken Sample.bearerGet = Some (lit "abc").
Proof. vm_compute. reflexivity. Qed.

(** No channel carries a token: a POST of JSON. *)
Example extract_jsonPost : extractAccessToken Sample.jsonPost = None.
Proof. vm_compute. reflexivity. Qed.

(** POST /api/time with a JSON content type: the answer is 400 and the
    validator is not asked. *)
Example post_time_json :
  TimeEndpoint.post Sample.rejecting (Sample.worldOf Sample.jsonPost)
  = (Ok tt,
     mkWorld (set_disableRespond true Sample.jsonPost)
       [mkResponse (Some 400%Z)
          (Some (mergedHeaders Sample.jsonPost
                   (badRequest (contentTypeMessage APPLICATION_FORM_URLENCODED))))
          (Some (lit "Request 'Content-Type' must be 'application/x-www-form-urlencoded'."))]
       [] [] 1580513400000%Z (localTZA (Sample.worldOf Sample.jsonPost))).
Proof. reflexivity. Qed.

(** The headers of that answer, as they are enumerated when it is written:
    the content type before the cookie of the context. *)
Example post_time_json_entries :
  Headers.entries
    (mergedHeaders Sample.jsonPost
       (badRequest (contentTypeMessage APPLICATION_FORM_URLENCODED)))
  = [(lit "content-type", lit "text/plain");
     (lit "set-cookie", lit "fen-session=1")].
Proof. reflexivity. Qed.

(** GET /api/time with a token the validator rejects: the validator's
    response is sent, with the merged headers. *)
Example get_time_rejected :
  TimeEndpoint.get Sample.rejecting (Sample.worldOf Sample.bearerGet)
  = (Ok tt,
     mkWorld (set_disableRespond true Sample.bearerGet)
       [mkResponse (Some 401%Z)
          (Some (mergedHeaders Sample.bearerGet Sample.unauthorized))
          None]
       [] [lit "introspection"] 1580513400000%Z
       (localTZA (Sample.worldOf Sample.bearerGet))).
Proof. reflexivity. Qed.

Example get_time_rejected_entries :
  Headers.entries (mergedHeaders Sample.bearerGet Sample.unauthorized)
  = [(lit "set-cookie", lit "fen-session=1");
     (lit "www-authenticate", lit "Bearer error=invalid_token")].
Proof. reflexivity. Qed.

(** A task that fails: the 500 response is sent and the error is logged. *)
Example process_failingTask :
  process Sample.failingTask (Sample.worldOf Sample.bearerGet)
  = (Ok tt,
     mkWorld (set_disableRespond true Sample.bearerGet)
       [mkResponse (Some 500%Z)
          (Some (mergedHeaders Sample.bearerGet
                   (internalServerError (lit "Something went wrong."))))
          (Some (lit "Something went wrong."))]
       [VError (lit "TypeError") (lit "connection refused")]
       [lit "introspection"] 1580513400000%Z
       (localTZA (Sample.worldOf Sample.bearerGet))).
Proof. reflexivity. Qed.

(** GET /api/time at 2020-01-31T23:30:00.000Z on a host in UTC: January. *)
Example buildResult_late_january_utc :
  TimeEndpoint.buildResult (fun _ => 0%Z) 1580513400000%Z
  = TimeEndpoint.mkTimeResult 2020 1 31 23 30 0 0.
Proof. reflexivity. Qed.

(* ===================================================================== *)
(** ** More on the bearer pattern and on extraction *)
(* ===================================================================== *)

(** Pattern characters consume a prefix that matches them. *)
Lemma matcher_literal_app (ic : bool) (l : list char) (ts : list term)
    (b rest : jsstring) : forall pos cap,
  Forall2 (fun x c => cls_match ic (CLit c) x = true) b l ->
  matcher ic (List.map (fun c => TChar (CLit c)) l ++ ts) pos (b ++ rest) cap
  = matcher ic ts (pos + length l)%nat rest cap.
Proof.
  intros pos cap H. revert pos.
  induction H as [|x c b l Hx _ IH]; intros pos; simpl.
  - now rewrite Nat.add_0_r.
  - simpl in Hx. rewrite Hx, IH. now rewrite Nat.add_succ_r.
Qed.

(** After a word that reads [Bearer] whatever its case, the match is the
    one of the rest of the pattern on the rest of the header. *)
Lemma exec_bearer_word (b rest : jsstring) :
  List.map canonicalize b = List.map canonicalize (lit "Bearer") ->
  exec BEARER_PATTERN (b ++ rest) = matcher true bearerTail 6 rest None.
Proof.
  intros Hb. rewrite exec_bearer_at_0.
  change (source BEARER_PATTERN)
    with (TBol :: List.map (fun c => TChar (CLit c)) (lit "Bearer") ++ bearerTail).
  cbn [matcher Nat.eqb].
  now rewrite matcher_literal_app by now apply Forall2_canonicalize.
Qed.

Lemma bearerMatch_word_length (b : jsstring) :
  List.map canonicalize b = List.map canonicalize (lit "Bearer") -> length b = 6%nat.
Proof.
  intros H. apply (f_equal (@length _)) in H. now rewrite !List.length_map in H.
Qed.

Lemma filter_notSpace_spaces (ws : jsstring) :
  Forall (fun x => isSpace x = true) ws -> List.filter notSpace ws = [].
Proof.
  induction 1 as [|x ws Hx _ IH]; simpl; [reflexivity|].
  unfold notSpace at 1. now rewrite Hx.
Qed.

Lemma filter_notSpace_token (T : jsstring) :
  Forall (fun x => isSpace x = false) T -> List.filter notSpace T = T.
Proof.
  induction 1 as [|x T Hx _ IH]; simpl; [reflexivity|].
  unfold notSpace at 1. rewrite Hx. simpl. now rewrite IH.
Qed.

(** The token is what is left of the header after its first six code units
    once the white space is removed. *)
Lemma bearerMatch_token (a T : jsstring) :
  bearerMatch a T -> T = List.filter notSpace (drop 6 a).
Proof.
  intros (b & ws1 & ws2 & -> & Hb & H1 & _ & H3 & H4).
  rewrite <- (bearerMatch_word_length b Hb), drop_app_length.
  rewrite !List.filter_app, (filter_notSpace_spaces ws1), (filter_notSpace_spaces ws2),
    (filter_notSpace_token T) by assumption.
  now rewrite app_nil_r.
Qed.

Lemma extractAccessToken_exec_Some (c : IContext) (a : jsstring)
    (r : option jsstring) :
  getAuthorization c = Some a ->
  exec BEARER_PATTERN a = Some r ->
  extractAccessToken c = r.
Proof.
  intros Ha He. unfold extractAccessToken. rewrite Ha.
  destruct a as [|x a]; [discriminate He|]. cbn [isNotEmpty].
  change (default [] (Some (x :: a))) with (x :: a). now rewrite He.
Qed.

(** X1: when [exec] matches the Authorization header, the token returned is
    never [undefined] and never empty, holds no white space, and is the
    header after its first six code units with the white space removed. *)
Theorem extractAccessToken_header_token (c : IContext) (a : jsstring)
    (r : option jsstring) :
  getAuthorization c = Some a ->
  exec BEARER_PATTERN a = Some r ->
  extractAccessToken c = Some (List.filter notSpace (drop 6 a))
  /\ r = Some (List.filter notSpace (drop 6 a))
  /\ List.filter notSpace (drop 6 a) <> []
  /\ Forall (fun x => isSpace x = false) (List.filter notSpace (drop 6 a)).
Proof.
  intros Ha He. pose proof (extractAccessToken_exec_Some c a r Ha He) as Hx.
  apply exec_bearer_iff in He as (T & -> & Hm).
  pose proof (bearerMatch_token a T Hm) as <-.
  destruct Hm as (b & ws1 & ws2 & _ & _ & _ & HT & Hns & _). auto.
Qed.

Lemma extractAccessToken_header_token_witness :
  getAuthorization Sample.bearerGet = Some (lit "Bearer abc")
  /\ exec BEARER_PATTERN (lit "Bearer abc") = Some (Some (lit "abc"))
  /\ extractAccessToken Sample.bearerGet
     = Some (List.filter notSpace (drop 6 (lit "Bearer abc"))).
Proof.
  split; [reflexivity|]. split; [reflexivity|].
  exact (proj1 (extractAccessToken_header_token Sample.bearerGet
                  (lit "Bearer abc") (Some (lit "abc")) eq_refl eq_refl)).
Defined.

(** X2: the case of the word [Bearer] does not matter: a header whose first
    six code units read [Bearer] in any case gives the result of the header
    with the word as the pattern writes it. *)
Theorem exec_bearer_scheme_case (b rest : jsstring) :
  List.map canonicalize b = List.map canonicalize (lit "Bearer") ->
  exec BEARER_PATTERN (b ++ rest) = exec BEARER_PATTERN (lit "Bearer" ++ rest).
Proof.
  intros Hb. now rewrite (exec_bearer_word b rest Hb), (exec_bearer_word _ rest eq_refl).
Qed.

Lemma exec_bearer_scheme_case_witness :
  List.map canonicalize (lit "bEARER") = List.map canonicalize (lit "Bearer")
  /\ exec BEARER_PATTERN (lit "bEARER" ++ lit " abc")
     = exec BEARER_PATTERN (lit "Bearer" ++ lit " abc").
Proof.
  split; [reflexivity|].
  exact (exec_bearer_scheme_case (lit "bEARER") (lit " abc") eq_refl).
Defined.

Lemma bearerMatch_rest (b rest T : jsstring) :
  length b = 6%nat ->
  bearerMatch (b ++ rest) T ->
  exists ws1 ws2, rest = ws1 ++ T ++ ws2
    /\ Forall (fun x => isSpace x = true) ws1
    /\ T <> []
    /\ Forall (fun x => isSpace x = false) T
    /\ Forall (fun x => isSpace x = true) ws2.
Proof.
  intros Hlen (b' & ws1 & ws2 & Heq & Hb & H).
  apply app_inj_1 in Heq as [_ ->].
  - exists ws1, ws2. tauto.
  - now rewrite (bearerMatch_word_length b' Hb).
Qed.

(** X3: a header of six code units followed by white space only (the word
    without credentials) is not matched. *)
Theorem exec_bearer_no_credentials (b ws : jsstring) :
  length b = 6%nat ->
  Forall (fun x => isSpace x = true) ws ->
  exec BEARER_PATTERN (b ++ ws) = None.
Proof.
  intros Hlen Hws. apply exec_bearer_None. intros T Hm.
  apply (bearerMatch_rest b ws T Hlen) in Hm
    as (ws1 & ws2 & -> & _ & HT & Hns & _).
  apply Forall_app in Hws as [_ Hws]. apply Forall_app in Hws as [Hws _].
  destruct T as [|x T]; [congruence|].
  inversion Hws; subst. inversion Hns; subst. congruence.
Qed.

Lemma exec_bearer_no_credentials_witness :
  length (lit "Bearer") = 6%nat
  /\ Forall (fun x => isSpace x = true) (lit "  ")
  /\ exec BEARER_PATTERN (lit "Bearer" ++ lit "  ") = None.
Proof.
  assert (Hws : Forall (fun x => isSpace x = true) (lit "  ")).
  { repeat constructor. }
  split; [reflexivity|]. split; [exact Hws|].
  exact (exec_bearer_no_credentials (lit "Bearer") (lit "  ") eq_refl Hws).
Defined.

(** A non-space element of white space followed by something lies in the
    something. *)
Lemma spaces_then (ws l p m : jsstring) (x : char) :
  Forall (fun c => isSpace c = true) ws ->
  isSpace x = false ->
  ws ++ l = p ++ x :: m ->
  exists p', l = p' ++ x :: m.
Proof.
  intros Hws Hx. revert p. induction Hws as [|w ws Hw _ IH]; intros p Heq.
  - now exists p.
  - destruct p as [|y p]; simpl in Heq; inversion Heq; subst.
    + congruence.
    + now apply IH with p.
Qed.

(** In a token followed by white space, whatever follows a white space is
    white space. *)
Lemma token_spaces_after_space (T ws q m : jsstring) (s : char) :
  Forall (fun c => isSpace c = false) T ->
  Forall (fun c => isSpace c = true) ws ->
  isSpace s = true ->
  T ++ ws = q ++ s :: m ->
  Forall (fun c => isSpace c = true) m.
Proof.
  intros HT Hws Hs. revert q. induction HT as [|t T Ht _ IH]; intros q Heq.
  - simpl in Heq. subst ws. apply Forall_app in Hws as [_ Hws].
    now inversion Hws.
  - destruct q as [|y q]; simpl in Heq; inversion Heq; subst.
    + congruence.
    + now apply IH with q.
Qed.

Lemma token_spaces_after_token (T ws p q m : jsstring) (x s : char) :
  Forall (fun c => isSpace c = false) T ->
  Forall (fun c => isSpace c = true) ws ->
  isSpace x = false ->
  isSpace s = true ->
  T ++ ws = p ++ x :: q ++ s :: m ->
  Forall (fun c => isSpace c = true) m.
Proof.
  intros HT Hws Hx Hs. revert p. induction HT as [|t T Ht HT IH]; intros p Heq.
  - simpl in Heq. subst ws. apply Forall_app in Hws as [_ Hws].
    inversion Hws; subst. congruence.
  - destruct p as [|y p]; simpl in Heq; inversion Heq; subst.
    + now apply (token_spaces_after_space T ws q m s).
    + now apply IH with p.
Qed.

(** X4: credentials with white space inside (after the first six code
    units a non-space, later a white space, later a non-space again) are
    not matched: the pattern takes one token, not the first of several. *)
Theorem exec_bearer_spaced_credentials (b p q r z : jsstring) (x s y : char) :
  length b = 6%nat ->
  isSpace x = false ->
  isSpace s = true ->
  isSpace y = false ->
  exec BEARER_PATTERN (b ++ p ++ x :: q ++ s :: r ++ y :: z) = None.
Proof.
  intros Hlen Hx Hs Hy. apply exec_bearer_None. intros T Hm.
  apply (bearerMatch_rest b _ T Hlen) in Hm
    as (ws1 & ws2 & Heq & Hws1 & _ & Hns & Hws2).
  symmetry in Heq. apply (spaces_then ws1 _ p _ x Hws1 Hx) in Heq as [p' Heq].
  apply (token_spaces_after_token T ws2 p' q _ x s Hns Hws2 Hx Hs) in Heq.
  apply Forall_app in Heq as [_ Heq]. inversion Heq; subst. congruence.
Qed.

Lemma exec_bearer_spaced_credentials_witness :
  length (lit "Bearer") = 6%nat
  /\ exec BEARER_PATTERN (lit "Bearer" ++ lit " " ++ 97 :: [] ++ 32 :: [] ++ 98 :: [])
     = None.
Proof.
  split; [reflexivity|].
  exact (exec_bearer_spaced_credentials (lit "Bearer") (lit " ") [] [] []
           97 32 98 eq_refl eq_refl eq_refl eq_refl).
Defined.

(** X5: when no channel applies (no Authorization header that [exec]
    matches, a method other than GET, a content type other than that of a
    form), extraction returns [undefined], whatever the query and the body
    hold. *)
Theorem extractAccessToken_no_channel (c : IContext) :
  (forall a, getAuthorization c = Some a -> exec BEARER_PATTERN a = None) ->
  getRequestMethod c <> lit "GET" ->
  getRequestContentType c <> Some APPLICATION_FORM_URLENCODED ->
  extractAccessToken c = None.
Proof.
  intros Hno Hm Hct. rewrite extractAccessToken_fallthrough.
  - now rewrite !bool_decide_eq_false_2.
  - intros a T Ha. apply exec_bearer_None. now apply Hno.
Qed.

Lemma extractAccessToken_no_channel_witness :
  getRequestMethod SampleMore.jsonPut <> lit "GET"
  /\ getRequestContentType SampleMore.jsonPut <> Some APPLICATION_FORM_URLENCODED
  /\ getQueryParameters SampleMore.jsonPut !! lit "access_token" = Some (lit "q")
  /\ getRequestBodyAsObject SampleMore.jsonPut !! lit "access_token" = Some (lit "b")
  /\ extractAccessToken SampleMore.jsonPut = None.
Proof.
  assert (Hm : getRequestMethod SampleMore.jsonPut <> lit "GET").
  { vm_compute. discriminate. }
  assert (Hct : getRequestContentType SampleMore.jsonPut
                <> Some APPLICATION_FORM_URLENCODED).
  { vm_compute. discriminate. }
  split; [exact Hm|]. split; [exact Hct|].
  split; [vm_compute; reflexivity|]. split; [vm_compute; reflexivity|].
  apply (extractAccessToken_no_channel SampleMore.jsonPut); [|exact Hm|exact Hct].
  intros a Ha. vm_compute in Ha. discriminate.
Defined.

(** X6: the query is read on GET only: with any other method the result
    does not change when the query parameters are replaced. *)
Theorem extractAccessToken_query_get_only (c : IContext)
    (q' : gmap jsstring jsstring) :
  getRequestMethod c <> lit "GET" ->
  extractAccessToken (set_params q' c) = extractAccessToken c.
Proof.
  intros Hm. unfold extractAccessToken.
  change (getAuthorization (set_params q' c)) with (getAuthorization c).
  change (getRequestMethod (set_params q' c)) with (getRequestMethod c).
  change (getRequestContentType (set_params q' c)) with (getRequestContentType c).
  change (getRequestBodyAsObject (set_params q' c)) with (getRequestBodyAsObject c).
  now rewrite !(bool_decide_eq_false_2 _ Hm).
Qed.

Lemma extractAccessToken_query_get_only_witness :
  getRequestMethod Sample.formPost <> lit "GET"
  /\ extractAccessToken
       (set_params {[ lit "access_token" := lit "q" ]} Sample.formPost)
     = extractAccessToken Sample.formPost.
Proof.
  assert (Hm : getRequestMethod Sample.formPost <> lit "GET").
  { vm_compute. discriminate. }
  split; [exact Hm|].
  exact (extractAccessToken_query_get_only Sample.formPost _ Hm).
Defined.

(** X7: the body is read only under the content type of a form: with any
    other content type, or none, the result does not change when the body
    is replaced. *)
Theorem extractAccessToken_body_form_only (c : IContext)
    (b' : gmap jsstring jsstring) :
  getRequestContentType c <> Some APPLICATION_FORM_URLENCODED ->
  extractAccessToken (set_reqBody b' c) = extractAccessToken c.
Proof.
  intros Hct. unfold extractAccessToken.
  change (getAuthorization (set_reqBody b' c)) with (getAuthorization c).
  change (getRequestMethod (set_reqBody b' c)) with (getRequestMethod c).
  change (getRequestContentType (set_reqBody b' c)) with (getRequestContentType c).
  change (getQueryParameters (set_reqBody b' c)) with (getQueryParameters c).
  now rewrite !(bool_decide_eq_false_2 _ Hct).
Qed.

Lemma extractAccessToken_body_form_only_witness :
  getRequestContentType Sample.jsonPost <> Some APPLICATION_FORM_URLENCODED
  /\ extractAccessToken
       (set_reqBody {[ lit "access_token" := lit "b" ]} Sample.jsonPost)
     = extractAccessToken Sample.jsonPost.
Proof.
  assert (Hct : getRequestContentType Sample.jsonPost
                <> Some APPLICATION_FORM_URLENCODED).
  { vm_compute. discriminate. }
  split; [exact Hct|].
  exact (extractAccessToken_body_form_only Sample.jsonPost _ Hct).
Defined.

(* ===================================================================== *)
(** ** More on the processing of a task *)
(* ===================================================================== *)

Lemma handleResponse_sent (response : Response) (w : World) :
  handleResponse response w
  = (Ok tt,
     mkWorld (set_disableRespond true (context w))
       (responded w
        ++ [mkResponse (status response)
              (Some (mergedHeaders (context w) response))
              (body response)])
       (console w) (remote w) (now w) (localTZA w)).
Proof. reflexivity. Qed.

Lemma process_Throw (task : Task) (w w1 : World) (e : Value) :
  task w = (Throw e, w1) ->
  process task w
  = handleResponse (internalServerError (lit "Something went wrong."))
      (mkWorld (context w1) (responded w1) (console w1 ++ [e]) (remote w1)
               (now w1) (localTZA w1)).
Proof.
  intros H. unfold process, bind, executeTask, try_catch. now rewrite H.
Qed.


(** X9: when the task throws, [process] sends the response 500 with the
    fixed body and the merge of the context's headers with the 500
    response's own, and logs the thrown value; the world is otherwise as
    the task left it. *)
Theorem process_task_throws (task : Task) (w w1 : World) (e : Value) :
  task w = (Throw e, w1) ->
  process task w
  = (Ok tt,
     mkWorld (set_disableRespond true (context w1))
       (responded w1
        ++ [mkResponse (Some 500%Z)
              (Some (mergedHeaders (context w1)
                       (internalServerError (lit "Something went wrong."))))
              (Some (lit "Something went wrong."))])
       (console w1 ++ [e]) (remote w1) (now w1) (localTZA w1)).
Proof.
  intros H. now rewrite (process_Throw task w w1 e H), handleResponse_sent.
Qed.

Lemma process_task_throws_witness :
  Sample.failingTask (Sample.worldOf Sample.bearerGet)
  = (Throw (VError (lit "TypeError") (lit "connection refused")),
     mkWorld Sample.bearerGet [] [] [lit "introspection"] 1580513400000%Z
             (localTZA (Sample.worldOf Sample.bearerGet)))
  /\ process Sample.failingTask (Sample.worldOf Sample.bearerGet)
     = (Ok tt,
        mkWorld (set_disableRespond true Sample.bearerGet)
          [mkResponse (Some 500%Z)
             (Some (mergedHeaders Sample.bearerGet
                      (internalServerError (lit "Something went wrong."))))
             (Some (lit "Something went wrong."))]
          [VError (lit "TypeError") (lit "connection refused")]
          [lit "introspection"] 1580513400000%Z
          (localTZA (Sample.worldOf Sample.bearerGet))).
Proof.
  split; [reflexivity|].
  exact (process_task_throws Sample.failingTask (Sample.worldOf Sample.bearerGet)
           _ _ eq_refl).
Defined.

(** X10: when the task returns a response, [process] sends it with its
    status and body and the merge of the context's headers with its own,
    and logs nothing; the world is otherwise as the task left it. *)
Theorem process_task_returns (task : Task) (w w1 : World) (response : Response) :
  task w = (Ok response, w1) ->
  process task w
  = (Ok tt,
     mkWorld (set_disableRespond true (context w1))
       (responded w1
        ++ [mkResponse (status response)
              (Some (mergedHeaders (context w1) response))
              (body response)])
       (console w1) (remote w1) (now w1) (localTZA w1)).
Proof.
  intros H. now rewrite (process_Ok task w w1 response H), handleResponse_sent.
Qed.

Lemma process_task_returns_witness :
  Sample.callingTask (Sample.worldOf Sample.bearerGet)
  = (Ok (mkResponse (Some 204%Z) None None),
     mkWorld Sample.bearerGet [] [] [lit "introspection"] 1580513400000%Z
             (localTZA (Sample.worldOf Sample.bearerGet)))
  /\ process Sample.callingTask (Sample.worldOf Sample.bearerGet)
     = (Ok tt,
        mkWorld (set_disableRespond true Sample.bearerGet)
          [mkResponse (Some 204%Z)
             (Some (mergedHeaders Sample.bearerGet
                      (mkResponse (Some 204%Z) None None)))
             None]
          [] [lit "introspection"] 1580513400000%Z
          (localTZA (Sample.worldOf Sample.bearerGet))).
Proof.
  split; [reflexivity|].
  exact (process_task_returns Sample.callingTask (Sample.worldOf Sample.bearerGet)
           _ _ eq_refl).
Defined.

(** X11: when the request's content type is the required one, the gated
    entry point is [process] on the task itself. *)
Theorem processForContentType_match (type : jsstring) (task : Task) (w : World) :
  getRequestContentType (context w) = Some type ->
  processForContentType type task w = process task w.
Proof.
  intros H. unfold processForContentType, process, executeTask, try_catch, bind,
    get_context.
  now rewrite (bool_decide_eq_true_2 _ H).
Qed.

Lemma processForContentType_match_witness :
  getRequestContentType (context (Sample.worldOf Sample.formPost))
  = Some APPLICATION_FORM_URLENCODED
  /\ processForContentType APPLICATION_FORM_URLENCODED Sample.callingTask
       (Sample.worldOf Sample.formPost)
     = process Sample.callingTask (Sample.worldOf Sample.formPost).
Proof.
  split; [reflexivity|].
  exact (processForContentType_match APPLICATION_FORM_URLENCODED
           Sample.callingTask (Sample.worldOf Sample.formPost) eq_refl).
Defined.

(* ===================================================================== *)
(** ** More on the time endpoint *)
(* ===================================================================== *)

Module CalendarFacts.

Import Date DateMake.
Local Open Scope Z_scope.

Lemma DaysInYear_cases (y : Z) : DaysInYear y = 365 \/ DaysInYear y = 366.
Proof.
  unfold DaysInYear.
  repeat match goal with |- context [if ?b then _ else _] => destruct b end; auto.
Qed.

Lemma DayWithinYear_range (t : Z) :
  0 <= DayWithinYear t < DaysInYear (YearFromTime t).
Proof.
  unfold DayWithinYear. pose proof (DateFacts.YearFromTime_day t) as H.
  rewrite DateFacts.DayFromYear_step in H. lia.
Qed.

Ltac month_cases :=
  repeat match goal with
         | |- context [if ?a <? ?b then _ else _] => destruct (Z.ltb_spec a b)
         end.

Lemma DateFromTime_range (t : Z) : 1 <= DateFromTime t <= 31.
Proof.
  pose proof (DayWithinYear_range t) as Hd.
  unfold DateFromTime, MonthFromTime, InLeapYear.
  destruct (DaysInYear_cases (YearFromTime t)) as [Hy|Hy]; rewrite Hy in *;
    cbn [Z.eqb Pos.eqb]; generalize dependent (DayWithinYear t); intros d Hd;
    month_cases; lia.
Qed.

Lemma monthStart_DateFromTime (t : Z) :
  monthStart (MonthFromTime t) (InLeapYear t) + DateFromTime t - 1
  = DayWithinYear t.
Proof.
  unfold DateFromTime, MonthFromTime.
  generalize (InLeapYear t) (DayWithinYear t). intros l d.
  month_cases; cbn [monthStart]; lia.
Qed.

Lemma MakeTime_TimeWithinDay (t : Z) :
  MakeTime (HourFromTime t) (MinFromTime t) (SecFromTime t) (msFromTime t)
  = t mod msPerDay.
Proof.
  unfold MakeTime, HourFromTime, MinFromTime, SecFromTime, msFromTime,
    msPerDay, msPerHour, msPerMinute, msPerSecond.
  Z.div_mod_to_equations; lia.
Qed.

(** The day and the time made from the UTC fields of a time value give
    the time value back. *)
Lemma MakeDate_fields (t : Z) :
  MakeDate (MakeDay (YearFromTime t) (MonthFromTime t) (DateFromTime t))
           (MakeTime (HourFromTime t) (MinFromTime t) (SecFromTime t)
                     (msFromTime t))
  = t.
Proof.
  unfold MakeDate, MakeDay. rewrite MakeTime_TimeWithinDay.
  pose proof (DateFacts.MonthFromTime_range t) as Hm.
  rewrite (Z.div_small (MonthFromTime t) 12), (Z.mod_small (MonthFromTime t) 12),
    Z.add_0_r by lia.
  change (if DaysInYear (YearFromTime t) =? 365 then 0 else 1) with (InLeapYear t).
  replace (DayFromYear (YearFromTime t) + monthStart (MonthFromTime t) (InLeapYear t)
           + DateFromTime t - 1)
    with (DayFromYear (YearFromTime t)
          + (monthStart (MonthFromTime t) (InLeapYear t) + DateFromTime t - 1)) by lia.
  rewrite monthStart_DateFromTime. unfold DayWithinYear, Day.
  pose proof (Z.div_mod t msPerDay ltac:(unfold msPerDay; lia)). lia.
Qed.

End CalendarFacts.

(** X12: whatever the instant and the host's time zone, the fields of the
    time endpoint's body are in their calendar ranges: month 1 to 12, day 1
    to 31, hour 0 to 23, minute and second 0 to 59, millisecond 0 to 999. *)
Theorem buildResult_ranges (tza : Z -> Z) (t : Z) :
  let r := TimeEndpoint.buildResult tza t in
  (1 <= TimeEndpoint.month r <= 12
   /\ 1 <= TimeEndpoint.day r <= 31
   /\ 0 <= TimeEndpoint.hour r <= 23
   /\ 0 <= TimeEndpoint.minute r <= 59
   /\ 0 <= TimeEndpoint.second r <= 59
   /\ 0 <= TimeEndpoint.millisecond r <= 999)%Z.
Proof.
  cbn. unfold Date.getMonth, Date.getUTCDate, Date.getUTCHours,
    Date.getUTCMinutes, Date.getUTCSeconds, Date.getUTCMilliseconds.
  pose proof (DateFacts.MonthFromTime_range (Date.LocalTime tza t)).
  pose proof (CalendarFacts.DateFromTime_range t).
  unfold Date.HourFromTime, Date.MinFromTime, Date.SecFromTime, Date.msFromTime,
    Date.msPerSecond.
  pose proof (Z.mod_pos_bound (t / Date.msPerHour) 24 ltac:(lia)).
  pose proof (Z.mod_pos_bound (t / Date.msPerMinute) 60 ltac:(lia)).
  pose proof (Z.mod_pos_bound (t / 1000) 60 ltac:(lia)).
  pose proof (Z.mod_pos_bound t 1000 ltac:(lia)).
  lia.
Qed.

(** X13: on a host whose local time is UTC at the instant of the request,
    for an instant in the range of [Date] whose year in UTC is not one of 0
    to 99, the body names that instant: [Date.UTC] on its fields, with the
    month counted from 0 again, is the time value of [now]. *)
Theorem buildResult_instant_utc_host (tza : Z -> Z) (t : Z) :
  tza t = 0%Z ->
  (Z.abs t <= 8640000000000000)%Z ->
  (Date.getUTCFullYear t < 0 \/ 99 < Date.getUTCFullYear t)%Z ->
  DateMake.instantOf (TimeEndpoint.buildResult tza t) = Some t.
Proof.
  intros H Hrange Hyear. unfold DateMake.instantOf, DateMake.UTC.
  cbn [TimeEndpoint.buildResult
    TimeEndpoint.year TimeEndpoint.month TimeEndpoint.day TimeEndpoint.hour
    TimeEndpoint.minute TimeEndpoint.second TimeEndpoint.millisecond].
  unfold Date.getMonth, Date.LocalTime. rewrite H, Z.add_0_r.
  replace (Date.MonthFromTime t + 1 - 1)%Z with (Date.MonthFromTime t) by lia.
  replace ((0 <=? Date.getUTCFullYear t)%Z && (Date.getUTCFullYear t <=? 99)%Z)
    with false.
  - unfold Date.getUTCFullYear, Date.getUTCDate, Date.getUTCHours,
      Date.getUTCMinutes, Date.getUTCSeconds, Date.getUTCMilliseconds.
    rewrite CalendarFacts.MakeDate_fields. unfold DateMake.TimeClip.
    now rewrite (proj2 (Z.ltb_ge _ _) Hrange).
  - symmetry. apply andb_false_iff.
    destruct Hyear; [left; apply Z.leb_gt|right; apply Z.leb_gt]; lia.
Qed.

Lemma buildResult_instant_utc_host_witness :
  (fun _ : Z => 0%Z) 1580513400000%Z = 0%Z
  /\ (Z.abs 1580513400000 <= 8640000000000000)%Z
  /\ (99 < Date.getUTCFullYear 1580513400000)%Z
  /\ DateMake.instantOf (TimeEndpoint.buildResult (fun _ => 0%Z) 1580513400000%Z)
     = Some 1580513400000%Z.
Proof.
  assert (Hr : (Z.abs 1580513400000 <= 8640000000000000)%Z) by (vm_compute; discriminate).
  assert (Hy : (99 < Date.getUTCFullYear 1580513400000)%Z) by reflexivity.
  split; [reflexivity|]. split; [exact Hr|]. split; [exact Hy|].
  exact (buildResult_instant_utc_host (fun _ => 0%Z) 1580513400000%Z eq_refl Hr
           (or_intror Hy)).
Defined.

(** In the year 50 the fields do not name the instant: [Date.UTC] reads the
    year as 1950. *)
Example instantOf_year_50 :
  TimeEndpoint.buildResult (fun _ => 0%Z) (-60589296000000)%Z
  = TimeEndpoint.mkTimeResult 50 1 1 0 0 0 0
  /\ DateMake.instantOf (TimeEndpoint.buildResult (fun _ => 0%Z) (-60589296000000)%Z)
     = Some (-631152000000)%Z.
Proof. split; reflexivity. Qed.

Section TimeRequests.

Variable validate :
  option jsstring -> option (list jsstring) -> option jsstring ->
  M AccessTokenValidator.

Lemma handle_validator_throws (w w1 : World) (e : Value) :
  validate (extractAccessToken (context w)) None None w = (Throw e, w1) ->
  TimeEndpoint.handle validate w = (Throw e, w1).
Proof.
  intros Hv. unfold TimeEndpoint.handle, validateAccessToken, bind, get_context.
  now rewrite Hv.
Qed.

Lemma handle_validator_invalid (w w1 : World) (v : AccessTokenValidator) :
  validate (extractAccessToken (context w)) None None w = (Ok v, w1) ->
  isValid v = false ->
  TimeEndpoint.handle validate w = (Ok (errorResponse v), w1).
Proof.
  intros Hv Hi. unfold TimeEndpoint.handle, validateAccessToken, bind, get_context.
  now rewrite Hv, Hi.
Qed.

End TimeRequests.

(** X14: GET /api/time when the validator throws (the authorization service
    cannot be reached, say): the response 500 with the fixed body and the
    merge of the context's headers with its own is sent, and the thrown
    value is logged; no time is served. *)
Theorem time_get_validator_throws
    (validate : option jsstring -> option (list jsstring) -> option jsstring ->
                M AccessTokenValidator)
    (w w1 : World) (e : Value) :
  validate (extractAccessToken (context w)) None None w = (Throw e, w1) ->
  TimeEndpoint.get validate w
  = (Ok tt,
     mkWorld (set_disableRespond true (context w1))
       (responded w1
        ++ [mkResponse (Some 500%Z)
              (Some (mergedHeaders (context w1) (internalServerError
                                              (lit "Something went wrong."))))
              (Some (lit "Something went wrong."))])
       (console w1 ++ [e]) (remote w1) (now w1) (localTZA w1)).
Proof.
  intros Hv. unfold TimeEndpoint.get.
  rewrite (process_Throw _ w w1 e (handle_validator_throws validate w w1 e Hv)).
  apply handleResponse_sent.
Qed.

Lemma time_get_validator_throws_witness :
  SampleMore.unreachable (extractAccessToken Sample.bearerGet) None None
                         (Sample.worldOf Sample.bearerGet)
  = (Throw (VError (lit "Error") (lit "connection refused")),
     mkWorld Sample.bearerGet [] [] [lit "introspection"] 1580513400000%Z
             (localTZA (Sample.worldOf Sample.bearerGet)))
  /\ TimeEndpoint.get SampleMore.unreachable (Sample.worldOf Sample.bearerGet)
     = (Ok tt,
        mkWorld (set_disableRespond true Sample.bearerGet)
          [mkResponse (Some 500%Z)
             (Some (mergedHeaders Sample.bearerGet
                      (internalServerError (lit "Something went wrong."))))
             (Some (lit "Something went wrong."))]
          [VError (lit "Error") (lit "connection refused")]
          [lit "introspection"] 1580513400000%Z
          (localTZA (Sample.worldOf Sample.bearerGet))).
Proof.
  split; [reflexivity|].
  exact (time_get_validator_throws SampleMore.unreachable
           (Sample.worldOf Sample.bearerGet) _ _ eq_refl).
Defined.

(** X15: GET /api/time with a token the validator reports as invalid: the
    response sent has the status and the body of the validator's error
    response, and the merge of the context's headers with the error
    response's own; nothing is logged. *)
Theorem time_get_invalid_token
    (validate : option jsstring -> option (list jsstring) -> option jsstring ->
                M AccessTokenValidator)
    (w w1 : World) (v : AccessTokenValidator) :
  validate (extractAccessToken (context w)) None None w = (Ok v, w1) ->
  isValid v = false ->
  TimeEndpoint.get validate w
  = (Ok tt,
     mkWorld (set_disableRespond true (context w1))
       (responded w1
        ++ [mkResponse (status (errorResponse v))
              (Some (mergedHeaders (context w1) (errorResponse v)))
              (body (errorResponse v))])
       (console w1) (remote w1) (now w1) (localTZA w1)).
Proof.
  intros Hv Hi. unfold TimeEndpoint.get.
  rewrite (process_Ok _ w w1 _ (handle_validator_invalid validate w w1 v Hv Hi)).
  apply handleResponse_sent.
Qed.

Lemma time_get_invalid_token_witness :
  Sample.rejecting (extractAccessToken Sample.bearerGet) None None
                   (Sample.worldOf Sample.bearerGet)
  = (Ok (mkValidator false Sample.unauthorized),
     mkWorld Sample.bearerGet [] [] [lit "introspection"] 1580513400000%Z
             (localTZA (Sample.worldOf Sample.bearerGet)))
  /\ TimeEndpoint.get Sample.rejecting (Sample.worldOf Sample.bearerGet)
     = (Ok tt,
        mkWorld (set_disableRespond true Sample.bearerGet)
          [mkResponse (Some 401%Z)
             (Some (mergedHeaders Sample.bearerGet Sample.unauthorized))
             None]
          [] [lit "introspection"] 1580513400000%Z
          (localTZA (Sample.worldOf Sample.bearerGet))).
Proof.
  split; [reflexivity|].
  exact (time_get_invalid_token Sample.rejecting (Sample.worldOf Sample.bearerGet)
           _ (mkValidator false Sample.unauthorized) eq_refl eq_refl).
Defined.

(** X16: GET /api/time with a token the validator reports as valid: the
    response sent is the one of [okJson] on the serialized fields of the
    clock as it is after the validation, with the merge of the context's
    headers and its own; the request takes no part in the body. *)
Theorem time_get_valid_token
    (validate : option jsstring -> option (list jsstring) -> option jsstring ->
                M AccessTokenValidator)
    (w w1 : World) (v : AccessTokenValidator) :
  validate (extractAccessToken (context w)) None None w = (Ok v, w1) ->
  isValid v = true ->
  TimeEndpoint.get validate w
  = (Ok tt,
     mkWorld (set_disableRespond true (context w1))
       (responded w1
        ++ [mkResponse (Some 200%Z)
              (Some (mergedHeaders (context w1)
                       (okJson (TimeEndpoint.JSON_stringify
                                  (TimeEndpoint.buildResult (localTZA w1) (now w1))))))
              (Some (TimeEndpoint.JSON_stringify
                       (TimeEndpoint.buildResult (localTZA w1) (now w1))))])
       (console w1) (remote w1) (now w1) (localTZA w1)).
Proof.
  intros Hv Hok. unfold TimeEndpoint.get.
  rewrite (process_Ok _ w w1
             (okJson (TimeEndpoint.JSON_stringify
                        (TimeEndpoint.buildResult (localTZA w1) (now w1))))).
  - apply handleResponse_sent.
  - now rewrite (handle_valid_token validate w w1 v Hv Hok).
Qed.

Lemma time_get_valid_token_witness :
  Sample.accepting (extractAccessToken Sample.bearerGet) None None
                   (Sample.worldOf Sample.bearerGet)
  = (Ok (mkValidator true Sample.unauthorized), Sample.worldOf Sample.bearerGet)
  /\ TimeEndpoint.get Sample.accepting (Sample.worldOf Sample.bearerGet)
     = (Ok tt,
        mkWorld (set_disableRespond true Sample.bearerGet)
          [mkResponse (Some 200%Z)
             (Some (mergedHeaders Sample.bearerGet
                      (okJson (TimeEndpoint.JSON_stringify
                                 (TimeEndpoint.mkTimeResult 2020 1 31 23 30 0 0)))))
             (Some (TimeEndpoint.JSON_stringify
                      (TimeEndpoint.mkTimeResult 2020 1 31 23 30 0 0)))]
          [] [] 1580513400000%Z (localTZA (Sample.worldOf Sample.bearerGet))).
Proof.
  split; [reflexivity|].
  exact (time_get_valid_token Sample.accepting (Sample.worldOf Sample.bearerGet)
           _ (mkValidator true Sample.unauthorized) eq_refl eq_refl).
Defined.

Lemma processForContentType_wrong (type : jsstring) (task : Task) (w : World) :
  getRequestContentType (context w) <> Some type ->
  processForContentType type task w
  = handleResponse (badRequest (contentTypeMessage type)) w.
Proof.
  intros Hne. unfold processForContentType.
  apply process_Ok. unfold bind, get_context. now rewrite bool_decide_eq_false_2.
Qed.

(** X17: POST /api/time under a content type other than that of a form
    does not consult the validator: the outcome is the same with any two
    validators, and nothing is added to the calls made to the authorization
    service. *)
Theorem time_post_wrong_content_type
    (validate validate' :
       option jsstring -> option (list jsstring) -> option jsstring ->
       M AccessTokenValidator)
    (w : World) :
  getRequestContentType (context w) <> Some APPLICATION_FORM_URLENCODED ->
  TimeEndpoint.post validate w = TimeEndpoint.post validate' w
  /\ remote (snd (TimeEndpoint.post validate w)) = remote w.
Proof.
  intros Hne. unfold TimeEndpoint.post, processForApplicationFormUrlEncoded.
  rewrite !(processForContentType_wrong _ _ w Hne). split; reflexivity.
Qed.

Lemma time_post_wrong_content_type_witness :
  getRequestContentType (context (Sample.worldOf Sample.jsonPost))
  <> Some APPLICATION_FORM_URLENCODED
  /\ TimeEndpoint.post Sample.rejecting (Sample.worldOf Sample.jsonPost)
     = TimeEndpoint.post SampleMore.unreachable (Sample.worldOf Sample.jsonPost).
Proof.
  assert (Hne : getRequestContentType (context (Sample.worldOf Sample.jsonPost))
                <> Some APPLICATION_FORM_URLENCODED).
  { vm_compute. discriminate. }
  split; [exact Hne|].
  exact (proj1 (time_post_wrong_content_type Sample.rejecting SampleMore.unreachable
                  (Sample.worldOf Sample.jsonPost) Hne)).
Defined.

(* ===================================================================== *)
(** ** The userinfo endpoint and the validation helper *)
(* ===================================================================== *)

(** X18: GET /api/userinfo with an Authorization header that [exec]
    matches with token [T]: the library's handler is given [T], whatever
    the query holds, and the response it returns is sent with its status
    and body, and the merge of the context's headers with its own. *)
Theorem userinfo_get_bearer_header
    (requestHandler : option jsstring -> M Response)
    (w w1 : World) (a T : jsstring) (response : Response) :
  getAuthorization (context w) = Some a ->
  exec BEARER_PATTERN a = Some (Some T) ->
  requestHandler (Some T) w = (Ok response, w1) ->
  UserInfoEndpoint.get requestHandler w
  = (Ok tt,
     mkWorld (set_disableRespond true (context w1))
       (responded w1
        ++ [mkResponse (status response)
              (Some (mergedHeaders (context w1) response))
              (body response)])
       (console w1) (remote w1) (now w1) (localTZA w1)).
Proof.
  intros Ha He Hh. unfold UserInfoEndpoint.get.
  rewrite (process_Ok _ w w1 response).
  - apply handleResponse_sent.
  - unfold UserInfoEndpoint.handle, bind, get_context.
    now rewrite (extractAccessToken_exec_Some _ a _ Ha He).
Qed.

Lemma userinfo_get_bearer_header_witness :
  getAuthorization (context (Sample.worldOf Sample.bearerGet))
  = Some (lit "Bearer abc")
  /\ exec BEARER_PATTERN (lit "Bearer abc") = Some (Some (lit "abc"))
  /\ UserInfoEndpoint.get SampleMore.echoing (Sample.worldOf Sample.bearerGet)
     = (Ok tt,
        mkWorld (set_disableRespond true Sample.bearerGet)
          [mkResponse (Some 200%Z)
             (Some (mergedHeaders Sample.bearerGet (okJson (lit "abc"))))
             (Some (lit "abc"))]
          [] [lit "userinfo"] 1580513400000%Z
          (localTZA (Sample.worldOf Sample.bearerGet))).
Proof.
  split; [reflexivity|]. split; [reflexivity|].
  exact (userinfo_get_bearer_header SampleMore.echoing
           (Sample.worldOf Sample.bearerGet) _ (lit "Bearer abc") (lit "abc") _
           eq_refl eq_refl eq_refl).
Defined.

(** X19: POST /api/userinfo under a content type other than that of a form
    does not reach the library's handler: the outcome is the same with any
    two handlers, and the response sent is the 400 one that names the
    content type of a form. *)
Theorem userinfo_post_wrong_content_type
    (requestHandler requestHandler' : option jsstring -> M Response) (w : World) :
  getRequestContentType (context w) <> Some APPLICATION_FORM_URLENCODED ->
  UserInfoEndpoint.post requestHandler w = UserInfoEndpoint.post requestHandler' w
  /\ UserInfoEndpoint.post requestHandler w
     = (Ok tt,
        mkWorld (set_disableRespond true (context w))
          (responded w
           ++ [mkResponse (Some 400%Z)
                 (Some (mergedHeaders (context w)
                          (badRequest (contentTypeMessage APPLICATION_FORM_URLENCODED))))
                 (Some (lit "Request 'Content-Type' must be 'application/x-www-form-urlencoded'."))])
          (console w) (remote w) (now w) (localTZA w)).
Proof.
  intros Hne. unfold UserInfoEndpoint.post, processForApplicationFormUrlEncoded.
  rewrite !(processForContentType_wrong _ _ w Hne). split; [reflexivity|].
  apply handleResponse_sent.
Qed.

Lemma userinfo_post_wrong_content_type_witness :
  getRequestContentType (context (Sample.worldOf Sample.jsonPost))
  <> Some APPLICATION_FORM_URLENCODED
  /\ UserInfoEndpoint.post SampleMore.echoing (Sample.worldOf Sample.jsonPost)
     = UserInfoEndpoint.post (fun _ => Sample.failingTask)
         (Sample.worldOf Sample.jsonPost).
Proof.
  assert (Hne : getRequestContentType (context (Sample.worldOf Sample.jsonPost))
                <> Some APPLICATION_FORM_URLENCODED).
  { vm_compute. discriminate. }
  split; [exact Hne|].
  exact (proj1 (userinfo_post_wrong_content_type SampleMore.echoing
                  (fun _ => Sample.failingTask)
                  (Sample.worldOf Sample.jsonPost) Hne)).
Defined.

(** [validateAccessToken] on a request whose Authorization header
    [exec] matches with token [T] is the validator's call on [T] with the
    scopes and the subject it was given, in the same world: the helper adds
    no effect of its own and does not look at the outcome. *)
Lemma validateAccessToken_bearer_header
    (validate : option jsstring -> option (list jsstring) -> option jsstring ->
                M AccessTokenValidator)
    (requiredScopes : option (list jsstring)) (requestedSubject : option jsstring)
    (w : World) (a T : jsstring) :
  getAuthorization (context w) = Some a ->
  exec BEARER_PATTERN a = Some (Some T) ->
  validateAccessToken validate requiredScopes requestedSubject w
  = validate (Some T) requiredScopes requestedSubject w.
Proof.
  intros Ha He. unfold validateAccessToken, bind, get_context.
  now rewrite (extractAccessToken_exec_Some _ a _ Ha He).
Qed.

Lemma validateAccessToken_bearer_header_witness :
  getAuthorization (context (Sample.worldOf Sample.bearerGet))
  = Some (lit "Bearer abc")
  /\ exec BEARER_PATTERN (lit "Bearer abc") = Some (Some (lit "abc"))
  /\ validateAccessToken Sample.rejecting (Some [lit "profile"]) None
       (Sample.worldOf Sample.bearerGet)
     = Sample.rejecting (Some (lit "abc")) (Some [lit "profile"]) None
         (Sample.worldOf Sample.bearerGet).
Proof.
  split; [reflexivity|]. split; [reflexivity|].
  exact (validateAccessToken_bearer_header Sample.rejecting (Some [lit "profile"])
           None (Sample.worldOf Sample.bearerGet) (lit "Bearer abc") (lit "abc")
           eq_refl eq_refl).
Defined.
